(** * Pokercraft-to-Bink converter: a shallow embedding and its properties

    The development follows [convert_pokercraft_to_bink.py].  Python text is
    modelled as [string] restricted to ASCII code points, Python [int] as
    [Z], Python [float] as IEEE-754 binary64 through the Standard Library's
    [spec_float] (precision 53, maximal exponent 1024), a Python [dict] with
    string keys as a [gmap string _], and exceptions as values of an error
    monad.  The library calls of the script (bs4, csv, datetime) are the
    fields of a record the converter takes as an argument.  The three
    characters of the script beyond ASCII are kept by code point, and what
    the standard output can encode is a type class: a theorem that names no
    standard output is about one in UTF-8, which prints every line of the
    script. *)

From Stdlib Require Import ZArith Lia Bool Ascii String SpecFloat DecimalString.
From stdpp Require Import base option list gmap strings.

Local Open Scope string_scope.
Local Open Scope Z_scope.

(** ** Exceptions and the error monad *)

Inductive exn_class :=
  | IndexError | ValueError | OverflowError | ZeroDivisionError | TypeError
  | AttributeError | KeyError | FileNotFoundError | UnicodeEncodeError.

(** An exception instance: its class and the text [str(e)] is rendered from
    (the interpreter quotes the offending literal with [repr]; the model
    keeps the literal itself). *)
Record exn := Exn { exn_cls : exn_class; exn_text : string }.

Inductive result (A : Type) :=
  | Ok (a : A)
  | Raise (e : exn).
Arguments Ok {A} a.
Arguments Raise {A} e.

#[global] Instance result_ret : MRet result := fun A a => Ok a.
#[global] Instance result_bind : MBind result := fun A B f r =>
  match r with Ok a => f a | Raise e => Raise e end.
#[global] Instance result_fmap : FMap result := fun A B f r =>
  match r with Ok a => Ok (f a) | Raise e => Raise e end.

Definition raised {A} (r : result A) : bool :=
  match r with Ok _ => false | Raise _ => true end.

(** ** Python text built-ins (ASCII) *)

Module Str.

Definition code (c : ascii) : Z := Z.of_nat (nat_of_ascii c).

(** [str.isspace] on ASCII: TAB..CR, FS..US and the space; this is the
    class [str.strip()] and [str.split()] use. *)
Definition is_space (c : ascii) : bool :=
  let n := code c in
  ((9 <=? n) && (n <=? 13)) || ((28 <=? n) && (n <=? 32)).

(** C's [isspace] (the interpreter's [Py_ISSPACE]), used by [int()] and
    [float()] on an ASCII string. *)
Definition is_cspace (c : ascii) : bool :=
  let n := code c in
  ((9 <=? n) && (n <=? 13)) || (n =? 32).

Fixpoint lstrip_by (p : ascii -> bool) (s : string) : string :=
  match s with
  | String c s' => if p c then lstrip_by p s' else s
  | EmptyString => EmptyString
  end.

Definition strip_by (p : ascii -> bool) (s : string) : string :=
  String.rev (lstrip_by p (String.rev (lstrip_by p s))).

(** [s.strip()] *)
Definition strip : string -> string := strip_by is_space.

(** [s.split(sep)] for a one-character separator. *)
Fixpoint split (sep : ascii) (s : string) : list string :=
  match s with
  | EmptyString => [EmptyString]
  | String c s' =>
      if Ascii.eqb c sep then EmptyString :: split sep s'
      else match split sep s' with
           | h :: t => String c h :: t
           | [] => [String c EmptyString]
           end
  end.

(** [s.split()]: maximal runs of non-blank characters. *)
Fixpoint split_ws (s : string) : list string :=
  match s with
  | EmptyString => []
  | String c s' =>
      if is_space c then split_ws s'
      else match s' with
           | EmptyString => [String c EmptyString]
           | String c' _ =>
               if is_space c' then String c EmptyString :: split_ws s'
               else match split_ws s' with
                    | h :: t => String c h :: t
                    | [] => [String c EmptyString]
                    end
           end
  end.

(** [sep.join(l)] *)
Fixpoint join (sep : string) (l : list string) : string :=
  match l with
  | [] => EmptyString
  | [x] => x
  | x :: l' => x +:+ sep +:+ join sep l'
  end.

(** [s.replace(c, "")] for a one-character [c]. *)
Fixpoint remove (c : ascii) (s : string) : string :=
  match s with
  | EmptyString => EmptyString
  | String a s' => if Ascii.eqb a c then remove c s' else String a (remove c s')
  end.

Definition upper_char (c : ascii) : ascii :=
  let n := code c in
  if (97 <=? n) && (n <=? 122) then ascii_of_nat (nat_of_ascii c - 32) else c.

(** [s.upper()] *)
Fixpoint upper (s : string) : string :=
  match s with
  | EmptyString => EmptyString
  | String c s' => String (upper_char c) (upper s')
  end.

Fixpoint starts_with (p s : string) : bool :=
  match p, s with
  | EmptyString, _ => true
  | String a p', String b s' => Ascii.eqb a b && starts_with p' s'
  | String _ _, EmptyString => false
  end.

(** [p in s] *)
Fixpoint contains (p s : string) : bool :=
  starts_with p s ||
  match s with
  | EmptyString => false
  | String _ s' => contains p s'
  end.

(** [str(n)] for an [int]. *)
Definition of_Z (n : Z) : string := NilZero.string_of_int (Z.to_int n).

Definition digit (c : ascii) : option Z :=
  let n := code c in
  if (48 <=? n) && (n <=? 57) then Some (n - 48) else None.

End Str.

(** [l[i]] on a list: [IndexError] out of range. *)
Definition index {A} (l : list A) (i : nat) : result A :=
  match l !! i with
  | Some a => Ok a
  | None => Raise (Exn IndexError "list index out of range")
  end.

(** ** Python numbers *)

Module Num.

(** binary64 *)
Definition prec : Z := 53.
Definition emax : Z := 1024.

Abbreviation float := spec_float.

#[global] Instance float_eq_dec : EqDecision float.
Proof. solve_decision. Defined.

Definition fadd : float -> float -> float := SFadd prec emax.
Definition fmul : float -> float -> float := SFmul prec emax.

Definition is_zero (x : float) : bool :=
  match x with S754_zero _ => true | _ => false end.

(** [x / y] on two floats *)
Definition fdiv (x y : float) : result float :=
  if is_zero y then Raise (Exn ZeroDivisionError "float division by zero")
  else Ok (SFdiv prec emax x y).

(** The binary64 value nearest to [m * 2^e] (ties to even); exact when
    [m] has at most 53 bits and the exponent is in range. *)
Definition dyadic (m e : Z) : float := binary_normalize prec emax m e false.

(** The binary64 value nearest to the fraction [n / d], for [0 < n] and
    [0 < d] of any size, with the sign given apart. *)
Definition ratio (neg : bool) (n d : positive) : float :=
  SFdiv prec emax (S754_finite neg n 0) (S754_finite false d 0).

Definition is_finite (x : float) : bool :=
  match x with
  | S754_zero _ | S754_finite _ _ _ => true
  | S754_infinity _ | S754_nan => false
  end.

(** [float(n)] for an [int] (also the implicit conversion of an [int]
    operand that meets a [float] one). *)
Definition of_int (n : Z) : result float :=
  let x := dyadic n 0 in
  if is_finite x then Ok x
  else Raise (Exn OverflowError "int too large to convert to float").

(** [a / b] on two [int]s: the correctly rounded quotient. *)
Definition int_truediv (a b : Z) : result float :=
  match a, b with
  | _, Z0 => Raise (Exn ZeroDivisionError "division by zero")
  | Z0, _ => Ok (S754_zero false)
  | Zpos n, Zpos d => Ok (ratio false n d)
  | Zneg n, Zneg d => Ok (ratio false n d)
  | Zpos n, Zneg d => Ok (ratio true n d)
  | Zneg n, Zpos d => Ok (ratio true n d)
  end ≫= fun x =>
  if is_finite x then Ok x
  else Raise (Exn OverflowError "integer division result too large for a float").

(** The decimal [±D * 10^e10] as the nearest binary64 value, which is
    what [float()] returns for a decimal literal; out of range it is an
    infinity, and a zero keeps its sign. *)
Definition of_decimal (neg : bool) (D : Z) (e10 : Z) : float :=
  match D with
  | Zpos n =>
      match e10 with
      | Zneg k => ratio neg n (10 ^ k)%positive
      | _ => dyadic ((if neg then Z.opp else id) (D * 10 ^ e10)) 0
      end
  | _ => S754_zero neg
  end.

(** The integer nearest to [n / d] for [0 < d], ties to the even one. *)
Definition round_half_even (n : Z) (d : Z) : Z :=
  let q := n / d in
  let r := n mod d in
  match 2 * r ?= d with
  | Lt => q
  | Gt => q + 1
  | Eq => if Z.even q then q else q + 1
  end.

(** [round(x, 2)] on a float: non-finite values and zeros round to
    themselves; otherwise the exact binary value is rounded to the
    nearest multiple of 1/100, ties to the even multiple, and that
    decimal is converted back to the nearest binary64 value. *)
Definition fround2 (x : float) : float :=
  match x with
  | S754_finite s m e =>
      match e with
      | Zneg k =>
          match round_half_even (Zpos m * 100) (Zpos (2 ^ k)%positive) with
          | Zpos c => ratio s c 100
          | _ => S754_zero s
          end
      | _ => x
      end
  | _ => x
  end.

End Num.
Import Num.

(** Python values met in the script. *)
Inductive pyval :=
  | VStr (s : string)
  | VInt (n : Z)
  | VFloat (x : float).

#[global] Instance pyval_eq_dec : EqDecision pyval.
Proof. solve_decision. Defined.

(** Truth value of an object: zero numbers and the empty string are false
    (a NaN is true). *)
Definition truthy (v : pyval) : bool :=
  match v with
  | VStr s => negb (String.eqb s "")
  | VInt n => negb (n =? 0)
  | VFloat (S754_zero _) => false
  | VFloat _ => true
  end.

Definition type_error {A} (op : string) : result A :=
  Raise (Exn TypeError ("unsupported operand type(s) for " +:+ op)).

(** [a + b] *)
Definition py_add (a b : pyval) : result pyval :=
  match a, b with
  | VInt m, VInt n => Ok (VInt (m + n))
  | VFloat x, VFloat y => Ok (VFloat (fadd x y))
  | VInt m, VFloat y => x ← of_int m; Ok (VFloat (fadd x y))
  | VFloat x, VInt n => y ← of_int n; Ok (VFloat (fadd x y))
  | VStr s, VStr t => Ok (VStr (s +:+ t))
  | _, _ => type_error "+"
  end.

Fixpoint str_repeat (s : string) (n : nat) : string :=
  match n with
  | O => ""
  | S n' => s +:+ str_repeat s n'
  end.

(** [a * b] *)
Definition py_mul (a b : pyval) : result pyval :=
  match a, b with
  | VInt m, VInt n => Ok (VInt (m * n))
  | VFloat x, VFloat y => Ok (VFloat (fmul x y))
  | VInt m, VFloat y => x ← of_int m; Ok (VFloat (fmul x y))
  | VFloat x, VInt n => y ← of_int n; Ok (VFloat (fmul x y))
  | VStr s, VInt n | VInt n, VStr s => Ok (VStr (str_repeat s (Z.to_nat n)))
  | _, _ => type_error "*"
  end.

(** [a / b] *)
Definition py_div (a b : pyval) : result pyval :=
  match a, b with
  | VInt m, VInt n => x ← int_truediv m n; Ok (VFloat x)
  | VFloat x, VFloat y => z ← fdiv x y; Ok (VFloat z)
  | VInt m, VFloat y => x ← of_int m; z ← fdiv x y; Ok (VFloat z)
  | VFloat x, VInt n => y ← of_int n; z ← fdiv x y; Ok (VFloat z)
  | _, _ => type_error "/"
  end.

(** [round(v, 2)]: an [int] is returned as it is. *)
Definition py_round2 (v : pyval) : result pyval :=
  match v with
  | VInt n => Ok (VInt n)
  | VFloat x => Ok (VFloat (fround2 x))
  | VStr _ => Raise (Exn TypeError "type str doesn't define __round__ method")
  end.

(** ** Number literals: [int(s)] and [float(s)] *)

Module Lit.
Import Str.

(** Digits with single underscores between them, after a first digit:
    [acc] holds the value read so far. *)
Fixpoint digits_from (acc : Z) (s : string) : option Z :=
  match s with
  | EmptyString => Some acc
  | String c r =>
      match digit c with
      | Some d => digits_from (10 * acc + d) r
      | None =>
          if Ascii.eqb c "_" then
            match r with
            | String c' r' =>
                match digit c' with
                | Some d => digits_from (10 * acc + d) r'
                | None => None
                end
            | EmptyString => None
            end
          else None
      end
  end.

Definition digits (s : string) : option Z :=
  match s with
  | String c r => match digit c with Some d => digits_from d r | None => None end
  | EmptyString => None
  end.

Definition sign_of (s : string) : bool * string :=
  match s with
  | String "-" r => (true, r)
  | String "+" r => (false, r)
  | _ => (false, s)
  end.

(** [int(s)] in base 10.  The interpreter's limit on the length of a
    decimal literal (4300 digits by default) is not modelled. *)
Definition py_int (s : string) : result Z :=
  let '(neg, body) := sign_of (strip_by is_cspace s) in
  match digits body with
  | Some n => Ok (if neg then - n else n)
  | None => Raise (Exn ValueError ("invalid literal for int() with base 10: " +:+ s))
  end.

(** Underscores of a [float()] argument: each must stand between two
    digits, and is dropped; [prev] tells whether the character before
    was a digit. *)
Fixpoint drop_underscores (prev : bool) (s : string) : option string :=
  match s with
  | EmptyString => Some EmptyString
  | String c r =>
      if Ascii.eqb c "_" then
        match r with
        | String c' _ =>
            if prev && bool_decide (is_Some (digit c')) then drop_underscores false r
            else None
        | EmptyString => None
        end
      else String c <$> drop_underscores (bool_decide (is_Some (digit c))) r
  end.

(** Leading digits of [s]: their value on top of [acc], how many there
    were, and the rest of the text. *)
Fixpoint take_digits (acc : Z) (s : string) : Z * nat * string :=
  match s with
  | String c r =>
      match digit c with
      | Some d => let '(v, n, rest) := take_digits (10 * acc + d) r in (v, S n, rest)
      | None => (acc, O, s)
      end
  | EmptyString => (acc, O, s)
  end.

(** A decimal numeral: digits, an optional point and digits, at least one
    digit in all, and an optional exponent with at least one digit. *)
Definition decimal (neg : bool) (s : string) : option float :=
  let '(i, ni, r1) := take_digits 0 s in
  let '(m, nf, r2) :=
    match r1 with
    | String "." r => take_digits i r
    | _ => (i, O, r1)
    end in
  match (ni + nf)%nat with
  | O => None
  | _ =>
      match r2 with
      | EmptyString => Some (of_decimal neg m (- Z.of_nat nf))
      | String c r3 =>
          if Ascii.eqb c "e" || Ascii.eqb c "E" then
            let '(eneg, r4) := sign_of r3 in
            match take_digits 0 r4 with
            | (ev, S _, EmptyString) =>
                Some (of_decimal neg m ((if eneg then - ev else ev) - Z.of_nat nf))
            | _ => None
            end
          else None
      end
  end.

Definition special (neg : bool) (s : string) : option float :=
  let u := upper s in
  if String.eqb u "INF" || String.eqb u "INFINITY" then Some (S754_infinity neg)
  else if String.eqb u "NAN" then Some S754_nan
  else None.

(** [float(s)] *)
Definition py_float (s : string) : result float :=
  let bad := Raise (Exn ValueError ("could not convert string to float: " +:+ s)) in
  match drop_underscores false (strip_by is_cspace s) with
  | None => bad
  | Some t =>
      let '(neg, body) := sign_of t in
      match special neg body with
      | Some x => Ok x
      | None => match decimal neg body with Some x => Ok x | None => bad end
      end
  end.

End Lit.
Import Lit.

(** ** The calendar interface and a sample implementation

    The script calls [datetime.strptime(text, "%b %d %Y")] and
    [date.strftime("%m/%d/%Y")].  The converter below takes both as
    parameters; [Calendar] gives the reading of the two calls in the C
    locale, used to run the converter on concrete documents. *)

Record datetime := Date { dt_year : Z; dt_month : Z; dt_day : Z }.

Module Calendar.
Import Str.

Definition month_of (abbr : string) : option Z :=
  list_find (String.eqb (upper abbr))
    ["JAN"; "FEB"; "MAR"; "APR"; "MAY"; "JUN";
     "JUL"; "AUG"; "SEP"; "OCT"; "NOV"; "DEC"]
  ≫= fun '(i, _) => Some (Z.of_nat i + 1).

Definition is_leap (y : Z) : bool :=
  (y mod 4 =? 0) && (negb (y mod 100 =? 0) || (y mod 400 =? 0)).

Definition days_in_month (y m : Z) : Z :=
  if m =? 2 then (if is_leap y then 29 else 28)
  else if (m =? 4) || (m =? 6) || (m =? 9) || (m =? 11) then 30 else 31.

(** The leading run of characters of [s] satisfying [p], and the rest. *)
Fixpoint span (p : ascii -> bool) (s : string) : string * string :=
  match s with
  | String c r => if p c then let '(a, b) := span p r in (String c a, b) else (EmptyString, s)
  | EmptyString => (EmptyString, EmptyString)
  end.

Definition is_digit (c : ascii) : bool := bool_decide (is_Some (digit c)).

Definition no_match {A} (text : string) : result A :=
  Raise (Exn ValueError ("time data does not match format '%b %d %Y': " +:+ text)).

(** A month abbreviation (any case), blanks, a day [1]..[31] of one or two
    digits, blanks, a year of exactly four digits, and nothing after;
    then the date must exist (years start at 1). *)
Definition strptime_bdY (text : string) : result datetime :=
  let mon := substring 0 3 text in
  let '(ws1, r1) := span is_space (substring 3 (String.length text - 3) text) in
  let '(dd, r2) := span is_digit r1 in
  let '(ws2, r3) := span is_space r2 in
  let '(yy, r4) := span is_digit r3 in
  match month_of mon, Lit.digits dd, Lit.digits yy with
  | Some m, Some d, Some y =>
      if bool_decide (ws1 ≠ "" ∧ ws2 ≠ "") && (String.length dd <=? 2)%nat
         && (1 <=? d) && (d <=? 31) && (4 <=? String.length yy)%nat then
        if negb (String.length yy =? 4)%nat || negb (String.eqb r4 "") then
          Raise (Exn ValueError "unconverted data remains")
        else if y =? 0 then Raise (Exn ValueError "year 0 is out of range")
        else if days_in_month y m <? d then
          Raise (Exn ValueError "day is out of range for month")
        else Ok (Date y m d)
      else no_match text
  | _, _, _ => no_match text
  end.

Definition pad (width : nat) (n : Z) : string :=
  let s := of_Z n in
  str_repeat "0" (width - String.length s) +:+ s.

(** [strftime("%m/%d/%Y")], the year written with four digits. *)
Definition strftime_mdY (d : datetime) : string :=
  pad 2 (dt_month d) +:+ "/" +:+ pad 2 (dt_day d) +:+ "/" +:+ pad 4 (dt_year d).

End Calendar.


(** ** The machine the converter runs on *)

(** A piece of a printed line: literal text of an f-string, or a value or
    an exception it interpolates (the interpreter renders them), or
    characters beyond ASCII, given by their code points. *)
Inductive piece :=
  | Text (s : string)
  | Fmt (v : pyval)
  | FmtExn (e : exn)
  | Glyphs (codes : list Z).

Abbreviation line := (list piece).

(** Files by path, and the lines printed so far (oldest first). *)
Record world := World { files : gmap string string; stdout : list line }.

Definition M (A : Type) : Type := world -> world * result A.

#[global] Instance M_ret : MRet M := fun A a w => (w, Ok a).
#[global] Instance M_bind : MBind M := fun A B f m w =>
  match m w with
  | (w', Ok a) => f a w'
  | (w', Raise e) => (w', Raise e)
  end.

Definition lift {A} (r : result A) : M A := fun w => (w, r).

(** [try: body  except Exception as e: handler(e)] *)
Definition try_except {A} (body : M A) (handler : exn -> M A) : M A := fun w =>
  match body w with
  | (w', Ok a) => (w', Ok a)
  | (w', Raise e) => handler e w'
  end.

(** The standard output of the process: the code points its encoding has
    beyond ASCII, and the text of the [UnicodeEncodeError] its codec raises
    on a line.  The texts of the model are ASCII, which every encoding of a
    standard output has; the characters kept apart as [Glyphs] are the ones
    an encoding may lack. *)
Class console := Console {
  encodes : Z -> bool;
  encode_error : line -> string
}.

Definition printable `{console} (l : line) : bool :=
  forallb (fun p => match p with Glyphs codes => forallb encodes codes | _ => true end) l.

(** [print(text)]: the line goes to the standard output, or nothing of it
    does and the codec raises. *)
Definition print `{console} (l : line) : M unit := fun w =>
  if printable l then (World (files w) (stdout w ++ [l])%list, Ok tt)
  else (w, Raise (Exn UnicodeEncodeError (encode_error l))).

(** A standard output in UTF-8, which has every code point but the
    surrogates.  Where no other console is named, this is the one of the
    run. *)
#[global] Instance utf8 : console :=
  Console (fun c => (0 <=? c) && (c <=? 1114111) && negb ((55296 <=? c) && (c <=? 57343)))
          (fun _ => "'utf-8' codec can't encode character: surrogates not allowed").

(** [open(path, "r").read()] *)
Definition read_file (path : string) : M string := fun w =>
  match files w !! path with
  | Some text => (w, Ok text)
  | None => (w, Raise (Exn FileNotFoundError path))
  end.

(** [open(path, "w")]: the file is created or emptied. *)
Definition open_w (path : string) : M unit := fun w =>
  (World (<[path := ""]> (files w)) (stdout w), Ok tt).

(** A write through the open handle appends to the file. *)
Definition write (path text : string) : M unit := fun w =>
  (World (<[path := default "" (files w !! path) +:+ text]> (files w)) (stdout w), Ok tt).

(** ** The parsed document

    What the script reads off bs4's tree: the rows found by
    [find_all("tr", {"mat-row": True})], each with its cells found by
    [find_all("td", {"mat-cell": True})]. *)
Record cell := Cell {
  classes : list string;      (* cell.get("class", []) *)
  text : string;              (* cell.get_text(strip=True) *)
  tooltip : option string     (* get_text(strip=True) of the first
                                 span of class mat-tooltip-trigger *)
}.

Abbreviation row := (list cell).

(** The per-row field bag, a Python dict. *)
Abbreviation session := (gmap string pyval).

(** [d.get(key, dflt)] *)
Definition get (d : session) (key : string) (dflt : pyval) : pyval :=
  default dflt (d !! key).

(** [d[key]] *)
Definition item (d : session) (key : string) : result pyval :=
  match d !! key with
  | Some v => Ok v
  | None => Raise (Exn KeyError key)
  end.

(** A call [f(v)] of a function written for text: its string methods are
    missing on a number. *)
Definition on_str {A} (f : string -> result A) (v : pyval) : result A :=
  match v with
  | VStr s => f s
  | _ => Raise (Exn AttributeError "object has no attribute 'replace'")
  end.

(** ** The helpers of the script *)

Import Str.

(** [parse_duration], lines 6-12. *)
Definition parse_duration (duration_str : string) : result pyval :=
  let parts := split ":" (strip duration_str) in
  hours ← index parts 0 ≫= py_int;
  minutes ← index parts 1 ≫= py_int;
  seconds ← (if (2 <? length parts)%nat then index parts 2 ≫= py_int else Ok 0);
  m ← py_div (VInt minutes) (VInt 60);
  hm ← py_add (VInt hours) m;
  s ← py_div (VInt seconds) (VInt 3600);
  total ← py_add hm s;
  py_round2 total.

(** [parse_winloss], lines 15-18. *)
Definition parse_winloss (winloss_str : string) : result pyval :=
  let clean_str := strip (remove "," (remove "$" winloss_str)) in
  VFloat <$> py_float clean_str.

(** [parse_stakes], lines 21-24. *)
Definition parse_stakes (stakes_str : string) : string :=
  remove " " (remove "$" (strip stakes_str)).

(** [parse_game_type], lines 42-50. *)
Definition parse_game_type (table_name : string) : string :=
  let table_upper := upper table_name in
  if contains "NLH" table_upper || contains "HOLDEM" table_upper
     || contains "HOLD'EM" table_upper then "Texas Hold'em"
  else if contains "PLO" table_upper || contains "OMAHA" table_upper then "Omaha"
  else "Texas Hold'em".

(** [estimate_buyin_from_stakes], lines 53-57. *)
Definition estimate_buyin_from_stakes (stakes_str : string) : result pyval :=
  let parts := split "/" (remove "$" stakes_str) in
  big_blind ← index parts 1 ≫= py_float;
  py_mul (VFloat big_blind) (VInt 100) ≫= py_round2.

(** ** The converter *)

(** The libraries and the clock the script relies on. *)
Record libs := Libs {
  now_year : Z;                                (* datetime.now().year *)
  strptime_bdY : string -> result datetime;    (* strptime(_, "%b %d %Y") *)
  strftime_mdY : datetime -> string;           (* strftime("%m/%d/%Y") *)
  find_rows : string -> list row;              (* BeautifulSoup(_).find_all(...) *)
  csv_line : list pyval -> string              (* what writer.writerow writes *)
}.

(** The body of the [try] in [parse_date], lines 30-36. *)
Definition parse_date_body (L : libs) (date_str : string) (year : option Z) : result string :=
  date_part ← strip <$> index (split "," date_str) 0;
  let year := match year with None => now_year L | Some y => y end in
  date_obj ← strptime_bdY L (date_part +:+ " " +:+ of_Z year);
  Ok (strftime_mdY L date_obj).

(** [parse_date], lines 27-39. *)
Definition parse_date `{console} (L : libs) (date_str : string) (year : option Z) : M string :=
  try_except (lift (parse_date_body L date_str year))
    (fun e =>
       print [Text "Error parsing date '"; Fmt (VStr date_str); Text "': "; FmtExn e];;
       mret "").

Definition has_class (c : cell) (name : string) : bool :=
  bool_decide (name ∈ classes c).

(** One turn of the loop over the cells of a row, lines 102-136. *)
Definition scan_cell `{console} (L : libs) (year : option Z) (s : session) (c : cell) : M session :=
  if has_class c "mat-column-SessionStart" then
    match tooltip c with
    | Some date_text =>
        let date_text := join " " (split_ws date_text) in
        d ← parse_date L date_text year;
        mret (<["Date" := VStr d]> s)
    | None => mret s
    end
  else if has_class c "mat-column-Stakes" then
    mret (<["Stakes" := VStr (parse_stakes (text c))]> s)
  else if has_class c "mat-column-Table" then
    let table_name := text c in
    mret (<["Game Type" := VStr (parse_game_type table_name)]>
            (<["Table" := VStr table_name]> s))
  else if has_class c "mat-column-Hands" then
    mret (<["Hands" := VStr (text c)]> s)
  else if has_class c "mat-column-Duration" then
    d ← lift (parse_duration (text c));
    mret (<["Duration" := d]> s)
  else if has_class c "mat-column-Winloss" then
    winloss ← lift (parse_winloss (text c));
    mret (<["Winloss" := winloss]> s)
  else mret s.

(** The loop over the cells, from the bag [s]. *)
Fixpoint scan_cells `{console} (L : libs) (year : option Z) (s : session) (cells : list cell) : M session :=
  match cells with
  | [] => mret s
  | c :: cells' => s' ← scan_cell L year s c; scan_cells L year s' cells'
  end.

(** The buy-in of a bag, lines 140-143; [None] is Python's [None]. *)
Definition choose_buyin (default_buy_in : option pyval) (s : session) : result pyval :=
  let estimated := on_str estimate_buyin_from_stakes (get s "Stakes" (VStr "")) in
  match default_buy_in with
  | Some b => if truthy b then Ok b else estimated
  | None => estimated
  end.

(** Lines 139-152: what happens to the bag of row [idx] once its cells
    are scanned; [sessions] is the accumulator, returned extended. *)
Definition close_row `{console} (default_buy_in : option pyval) (idx : nat)
    (s : session) (sessions : list session) : M (list session) :=
  if bool_decide (s = ∅) then mret sessions
  else
    buyin ← lift (choose_buyin default_buy_in s);
    let s := <["Buyin" := buyin]> s in
    cashout ← lift (py_add buyin (get s "Winloss" (VInt 0)) ≫= py_round2);
    let s := <["Cashout" := cashout]> s in
    let sessions := (sessions ++ [s])%list in
    b ← lift (item s "Buyin");
    c ← lift (item s "Cashout");
    print [Text "Session "; Fmt (VInt (Z.of_nat idx + 1)); Text ": Buyin=$"; Fmt b;
           Text ", Winloss=$"; Fmt (get s "Winloss" (VInt 0));
           Text ", Cashout=$"; Fmt c];;
    mret sessions.

(** The loop over the rows, lines 98-152. *)
Fixpoint scan_rows `{console} (L : libs) (year : option Z) (default_buy_in : option pyval)
    (idx : nat) (rows : list row) (sessions : list session) : M (list session) :=
  match rows with
  | [] => mret sessions
  | r :: rows' =>
      s ← scan_cells L year ∅ r;
      sessions' ← close_row default_buy_in idx s sessions;
      scan_rows L year default_buy_in (S idx) rows' sessions'
  end.

Definition line_feed : string := String (ascii_of_nat 10) "".

(** The three characters after the line feed of line 204: U+00E2, U+0153
    and U+201C (a check mark whose UTF-8 bytes were read as Windows-1252). *)
Definition check_mark : list Z := [226; 339; 8220].

(** The line printed at line 204, for [n] sessions. *)
Definition complete (n : nat) (output_csv : string) : line :=
  [ Text line_feed; Glyphs check_mark; Text " Conversion complete! ";
    Fmt (VInt (Z.of_nat n)); Text " sessions exported to "; Fmt (VStr output_csv) ].

Definition fieldnames : list string :=
  ["Date"; "Duration"; "Buyin"; "Cashout"; "Stakes"; "Cash/Tourney";
   "Live/online"; "Location"; "Game Type"; "Limit Type"; "Expenses";
   "Bankroll"; "Action Sold Percentage"; "Notes"].

Definition fzero : pyval := VFloat (S754_zero false).

(** The record written for one session, lines 182-201, in the order of
    [fieldnames]. *)
Definition csv_record (location bankroll : string) (s : session) : list pyval :=
  let table := get s "Table" (VStr "") in
  let hands := get s "Hands" (VStr "") in
  let notes :=
    match table, hands with
    | VStr t, VStr h =>
        if truthy table && truthy hands then t +:+ " - " +:+ h +:+ " hands" else ""
    | _, _ => ""
    end in
  [ get s "Date" (VStr ""); get s "Duration" fzero; get s "Buyin" fzero;
    get s "Cashout" fzero; get s "Stakes" (VStr ""); VStr "Cash"; VStr "Online";
    VStr location; get s "Game Type" (VStr "Texas Hold'em"); VStr "No Limit";
    fzero; VStr bankroll; fzero; VStr notes ].

Fixpoint write_records (L : libs) (path : string) (recs : list (list pyval)) : M unit :=
  match recs with
  | [] => mret tt
  | r :: recs' => write path (csv_line L r);; write_records L path recs'
  end.

(** [convert_pokercraft_to_bink], lines 60-205. *)
Definition convert_pokercraft_to_bink `{console} (L : libs) (html_file output_csv : string)
    (year : option Z) (default_buy_in : option pyval)
    (location bankroll : string) : M (list session) :=
  html_content ← read_file html_file;
  let rows := find_rows L html_content in
  match rows with
  | [] =>
      print [Text "Warning: No table rows found. Make sure HTML contains <tr mat-row> elements"];;
      mret []
  | _ =>
      sessions ← scan_rows L year default_buy_in O rows [];
      match sessions with
      | [] =>
          print [Text "No sessions found. Please check your HTML file."];;
          mret []
      | _ =>
          open_w output_csv;;
          write output_csv (csv_line L (VStr <$> fieldnames));;
          write_records L output_csv (csv_record location bankroll <$> sessions);;
          print (complete (length sessions) output_csv);;
          mret sessions
      end
  end.

(** ** What the specification says, as definitions *)

(** Cashout invariant of a Session Record: [Cashout] is
    [round(Buyin + Winloss, 2)], an unset [Winloss] counting as 0. *)
Definition cashout_invariant (s : session) : Prop :=
  ∃ buyin cashout,
    s !! "Buyin" = Some buyin ∧ s !! "Cashout" = Some cashout ∧
    (py_add buyin (get s "Winloss" (VInt 0)) ≫= py_round2) = Ok cashout.

(** The buy-in estimated from the [Stakes] field of a record ([""] when the
    field is unset). *)
Definition estimated_buyin (s : session) : result pyval :=
  on_str estimate_buyin_from_stakes (get s "Stakes" (VStr "")).

(** Buy-in rule as the specification words it: the fixed amount whenever
    one was provided, else the estimate. *)
Definition buyin_if_provided (default_buy_in : option pyval) (s : session) : Prop :=
  match default_buy_in with
  | Some b => s !! "Buyin" = Some b
  | None => ∃ b, s !! "Buyin" = Some b ∧ estimated_buyin s = Ok b
  end.

(** Buy-in rule of the code: the fixed amount whenever one was provided and
    is not zero, else the estimate. *)
Definition buyin_if_nonzero (default_buy_in : option pyval) (s : session) : Prop :=
  match default_buy_in with
  | Some b =>
      if truthy b then s !! "Buyin" = Some b
      else ∃ b', s !! "Buyin" = Some b' ∧ estimated_buyin s = Ok b'
  | None => ∃ b, s !! "Buyin" = Some b ∧ estimated_buyin s = Ok b
  end.

(** [hours + minutes/60 + seconds/3600], rounded to two places, in Python's
    arithmetic on [int] and [float]. *)
Definition decimal_hours (hours minutes seconds : Z) : result pyval :=
  m ← py_div (VInt minutes) (VInt 60);
  hm ← py_add (VInt hours) m;
  s ← py_div (VInt seconds) (VInt 3600);
  total ← py_add hm s;
  py_round2 total.

(** [pat] occurs in [s] when case is ignored. *)
Definition occurs_ignoring_case (pat s : string) : Prop :=
  ∃ pre mid post, s = pre +:+ mid +:+ post ∧ upper mid = upper pat.

(** The column a cell is routed to: the first of the six class tests of the
    loop that succeeds. *)
Inductive column := SessionStart | Stakes | Table | Hands | Duration | Winloss.

#[global] Instance column_eq_dec : EqDecision column.
Proof. solve_decision. Defined.

Definition column_of (c : cell) : option column :=
  if has_class c "mat-column-SessionStart" then Some SessionStart
  else if has_class c "mat-column-Stakes" then Some Stakes
  else if has_class c "mat-column-Table" then Some Table
  else if has_class c "mat-column-Hands" then Some Hands
  else if has_class c "mat-column-Duration" then Some Duration
  else if has_class c "mat-column-Winloss" then Some Winloss
  else None.

(** The field a column fills. *)
Definition field_of (k : column) : string :=
  match k with
  | SessionStart => "Date"
  | Stakes => "Stakes"
  | Table => "Table"
  | Hands => "Hands"
  | Duration => "Duration"
  | Winloss => "Winloss"
  end.

(** A row is fully populated when each of the six columns has a cell, the
    session-start one with its tooltip element. *)
Definition fully_populated (r : row) : Prop :=
  (∃ c t, c ∈ r ∧ column_of c = Some SessionStart ∧ tooltip c = Some t) ∧
  ∀ k, k ≠ SessionStart → ∃ c, c ∈ r ∧ column_of c = Some k.

(** Two cells that differ at most in the text of a session-start cell, and
    two rows of such cells. *)
Definition same_but_date_text (c c' : cell) : Prop :=
  classes c = classes c' ∧
  (column_of c = Some SessionStart ∨ text c = text c') ∧
  (is_Some (tooltip c) ↔ is_Some (tooltip c')).

Definition same_but_dates (r r' : row) : Prop := Forall2 same_but_date_text r r'.

(** ** Vocabulary of the proofs *)

(** A computation that leaves the files as they are, whatever it returns. *)
Definition keeps_files {A} (m : M A) : Prop :=
  ∀ w w' r, m w = (w', r) -> files w' = files w.

(** The record appended for a bag [s], given its buy-in and cash-out. *)
Definition closed (s : session) (buyin cashout : pyval) : session :=
  <["Cashout" := cashout]> (<["Buyin" := buyin]> s).

(** Two results agree when both are values related by [R] or both are the
    same exception. *)
Definition agree {A} (R : A -> A -> Prop) (r r' : result A) : Prop :=
  match r, r' with
  | Ok a, Ok a' => R a a'
  | Raise e, Raise e' => e = e'
  | _, _ => False
  end.

(** Two bags that differ at most in the value of their [Date] field. *)
Definition same_but_date (s s' : session) : Prop :=
  delete "Date" s = delete "Date" s' ∧ (is_Some (s !! "Date") ↔ is_Some (s' !! "Date")).

(** The text of the given records, one written line after the other. *)
Definition csv_text (L : libs) (recs : list (list pyval)) : string :=
  foldr (fun r rest => csv_line L r +:+ rest) "" recs.

(** Closes an equation between closed terms by evaluation. *)
Ltac by_vm :=
  lazymatch goal with
  | |- ?a = _ => vm_cast_no_check (@eq_refl _ a)
  end.

(** Writes the literal separators of a goal as the first character of what
    follows them. *)
Ltac expose_separators :=
  repeat match goal with
  | |- context [String ?c "" +:+ ?x] => change (String c "" +:+ x) with (String c x)
  end.

(** ** A sample run-time and document *)

Module Sample.

Definition crlf : string := String (ascii_of_nat 13) (String (ascii_of_nat 10) "").

(** A stand-in for the csv writer: fields joined by commas, a float shown
    as mantissa and binary exponent. *)
Definition show (v : pyval) : string :=
  match v with
  | VStr s => s
  | VInt n => of_Z n
  | VFloat (S754_finite s m e) =>
      (if s then "-" else "") +:+ of_Z (Zpos m) +:+ "p" +:+ of_Z e
  | VFloat (S754_zero s) => if s then "-0.0" else "0.0"
  | VFloat (S754_infinity s) => if s then "-inf" else "inf"
  | VFloat S754_nan => "nan"
  end.

Definition csv_line (rec : list pyval) : string := join "," (show <$> rec) +:+ crlf.

(** A standard output in Latin-1: the code points up to 255.  The text of
    its error is the one the codec gives for the last line of the
    converter, the only line of the script it cannot encode. *)
Definition latin1 : console :=
  Console (fun c => (0 <=? c) && (c <=? 255))
          (fun _ => "'latin-1' codec can't encode characters in position 2-3: ordinal not in range(256)").

(** The libraries over a document whose marked rows are [rows]. *)
Definition lib (rows : list row) : libs :=
  Libs 2026 Calendar.strptime_bdY Calendar.strftime_mdY (fun _ => rows) csv_line.

Definition date_cell : cell :=
  Cell ["mat-cell"; "mat-column-SessionStart"] "Nov 10, 23:00" (Some "Nov 10,   23:00").
Definition stakes_cell : cell := Cell ["mat-cell"; "mat-column-Stakes"] "$0.05/ $0.1" None.
Definition table_cell : cell := Cell ["mat-cell"; "mat-column-Table"] "NLH 6-Max" None.
Definition hands_cell : cell := Cell ["mat-cell"; "mat-column-Hands"] "120" None.
Definition duration_cell : cell := Cell ["mat-cell"; "mat-column-Duration"] "01:30:00" None.
Definition winloss_cell : cell := Cell ["mat-cell"; "mat-column-Winloss"] "-$5.00" None.

Definition full_row : row :=
  [date_cell; stakes_cell; table_cell; hands_cell; duration_cell; winloss_cell].

(** A row with neither a stakes nor a win/loss cell. *)
Definition hands_row : row := [ Cell ["mat-cell"; "mat-column-Hands"] "12" None ].

(** A row whose date is not a date. *)
Definition bad_date_row : row :=
  [ Cell ["mat-cell"; "mat-column-SessionStart"] "yesterday" (Some "yesterday");
    Cell ["mat-cell"; "mat-column-Stakes"] "$1/$2" None ].

(** A row whose duration has a part that is not a number. *)
Definition bad_duration_row : row :=
  [ Cell ["mat-cell"; "mat-column-Stakes"] "$1/$2" None;
    Cell ["mat-cell"; "mat-column-Duration"] "1h:30" None ].

(** A document whose second row is malformed, and what reading its
    duration raises. *)
Definition mixed_rows : list row := [full_row; bad_duration_row; full_row].

(** A row whose duration has a fourth part, which is not a number. *)
Definition long_duration_row : row :=
  [ Cell ["mat-cell"; "mat-column-Duration"] "1:30:00:xx" None ].

Definition bad_part : exn := Exn ValueError "invalid literal for int() with base 10: 1h".

Definition disk : world := World {[ "pokercraft_sessions.html" := "<table>...</table>" ]} [].

(** A run on the sample disk, as the driver calls the converter. *)
Definition run (rows : list row) (year : option Z) (default_buy_in : option pyval) :=
  convert_pokercraft_to_bink (lib rows) "pokercraft_sessions.html" "bink_import.csv"
    year default_buy_in "Natural8" "Natural8" disk.

(** The same run on the standard output [K]. *)
Definition run_on (K : console) (rows : list row) (year : option Z)
    (default_buy_in : option pyval) :=
  @convert_pokercraft_to_bink K (lib rows) "pokercraft_sessions.html" "bink_import.csv"
    year default_buy_in "Natural8" "Natural8" disk.

(** The record expected from [full_row] in 2024 with an estimated
    buy-in: 1.5 hours, a buy-in of 10.0, a loss of 5.0, a cash-out of
    5.0. *)
Definition full_session : session :=
  <["Cashout" := VFloat (dyadic 5 0)]> (<["Buyin" := VFloat (dyadic 10 0)]> (
  <["Winloss" := VFloat (dyadic (-5) 0)]> (<["Duration" := VFloat (dyadic 3 (-1))]> (
  <["Hands" := VStr "120"]> (<["Game Type" := VStr "Texas Hold'em"]> (
  <["Table" := VStr "NLH 6-Max"]> (<["Stakes" := VStr "0.05/0.1"]> (
  <["Date" := VStr "11/10/2024"]> ∅)))))))).

(** The record expected from [hands_row] with a fixed buy-in of 20. *)
Definition hands_session : session :=
  <["Cashout" := VInt 20]> (<["Buyin" := VInt 20]> (<["Hands" := VStr "12"]> ∅)).

(** The record expected from [long_duration_row] with a fixed buy-in of 20. *)
Definition long_duration_session : session :=
  <["Cashout" := VInt 20]> (<["Buyin" := VInt 20]> (
  <["Duration" := VFloat (dyadic 3 (-1))]> ∅)).

End Sample.

(** ** The driver of the script

    Lines 209-259: the block run when the file is the main program.  On top
    of the libraries of the converter it uses two built-ins that are taken
    as parameters: [sum], whose algorithm on floats differs between
    versions of the interpreter, and [format(v, ".2f")]. *)

Record builtins := Builtins {
  py_sum : list pyval -> result pyval;      (* sum(values) *)
  format_2f : pyval -> result string        (* format(v, ".2f") *)
}.

(** [a - b] *)
Definition py_sub (a b : pyval) : result pyval :=
  match a, b with
  | VInt m, VInt n => Ok (VInt (m - n))
  | VFloat x, VFloat y => Ok (VFloat (SFsub prec emax x y))
  | VInt m, VFloat y => x ← of_int m; Ok (VFloat (SFsub prec emax x y))
  | VFloat x, VInt n => y ← of_int n; Ok (VFloat (SFsub prec emax x y))
  | _, _ => type_error "-"
  end.

(** [x or alt], where [None] is Python's [None]. *)
Definition py_or (x : option pyval) (alt : pyval) : pyval :=
  match x with
  | Some v => if truthy v then v else alt
  | None => alt
  end.

(** The dictionary [CONFIG]. *)
Record config := Config {
  cfg_html_file : string;
  cfg_output_csv : string;
  cfg_year : option Z;
  cfg_default_buy_in : option pyval;
  cfg_location : string;
  cfg_bankroll : string
}.

(** Its value in the script, lines 213-220. *)
Definition CONFIG : config :=
  Config "pokercraft_sessions.html" "bink_import.csv" (Some 2024) None "Natural8" "Natural8".

#[global] Instance exn_class_eq_dec : EqDecision exn_class.
Proof. solve_decision. Defined.

(** ["=" * 70] *)
Definition rule : string := str_repeat "=" 70.

(** The banner, lines 222-232. *)
Definition banner (C : config) : list line :=
  [ [Text rule];
    [Text "Pokercraft to Bink Converter"];
    [Text rule];
    [Text "Input file: "; Fmt (VStr (cfg_html_file C))];
    [Text "Output file: "; Fmt (VStr (cfg_output_csv C))];
    [Text "Year: "; Fmt (py_or (VInt <$> cfg_year C) (VStr "Current year"))];
    [Text "Buy-in: $"; Fmt (py_or (cfg_default_buy_in C) (VStr "Auto-estimate from stakes"))];
    [Text "Location: "; Fmt (VStr (cfg_location C))];
    [Text "Bankroll: "; Fmt (VStr (cfg_bankroll C))];
    [Text rule];
    [] ].

Fixpoint print_all `{console} (ls : list line) : M unit :=
  match ls with
  | [] => mret tt
  | l :: ls' => print l;; print_all ls'
  end.

(** The summary block, lines 238-249. *)
Definition summary `{console} (B : builtins) (sessions : list session) : M unit :=
  print [Text (line_feed +:+ rule)];;
  print [Text "SUMMARY"];;
  print [Text rule];;
  total_buy_in ← lift (py_sum B ((fun s => get s "Buyin" (VInt 0)) <$> sessions));
  total_cashout ← lift (py_sum B ((fun s => get s "Cashout" (VInt 0)) <$> sessions));
  total_profit ← lift (py_sub total_cashout total_buy_in);
  print [Text "Total sessions: "; Fmt (VInt (Z.of_nat (length sessions)))];;
  b ← lift (format_2f B total_buy_in);
  print [Text "Total buy-in: $"; Text b];;
  c ← lift (format_2f B total_cashout);
  print [Text "Total cash-out: $"; Text c];;
  p ← lift (format_2f B total_profit);
  print [Text "Total profit/loss: $"; Text p];;
  print [Text rule].

(** The body of the [try], lines 235-249. *)
Definition main_body `{console} (L : libs) (B : builtins) (C : config) : M unit :=
  sessions ← convert_pokercraft_to_bink L (cfg_html_file C) (cfg_output_csv C)
               (cfg_year C) (cfg_default_buy_in C) (cfg_location C) (cfg_bankroll C);
  match sessions with
  | [] => mret tt
  | _ => summary B sessions
  end.

(** How the process ends: the world it leaves, the tracebacks written to
    the error stream, and the exit status. *)
Record exit := Exit { final : world; tracebacks : list exn; status : Z }.

(** The main program, lines 209-259.  The banner and the two error messages
    hold no character beyond ASCII, so these prints go through on every
    standard output, and only the world they leave is kept. *)
Definition main `{console} (L : libs) (B : builtins) (C : config) (w : world) : exit :=
  let w0 := (print_all (banner C) w).1 in
  match main_body L B C w0 with
  | (w1, Ok _) => Exit w1 [] 0
  | (w1, Raise e) =>
      if decide (exn_cls e = FileNotFoundError) then
        Exit (print_all
                [ [Text "Error: Could not find file '"; Fmt (VStr (cfg_html_file C)); Text "'"];
                  [Text "Please save your Pokercraft HTML to this file and try again."] ]
                w1).1 [] 1
      else
        Exit (print [Text "Error: "; FmtExn e] w1).1 [e] 1
  end.

(** ** Further vocabulary *)

(** The libraries [L] over a document whose marked rows are [rows]. *)
Definition with_rows (L : libs) (rows : list row) : libs :=
  Libs (now_year L) (strptime_bdY L) (strftime_mdY L) (fun _ => rows) (csv_line L).

(** The binary64 value nearest to [k / 100]. *)
Definition hundredths (k : Z) : float :=
  match k with
  | Zpos p => ratio false p 100
  | Zneg p => ratio true p 100
  | Z0 => S754_zero false
  end.

(** What each field of a record may hold: text in the text fields, a float
    for the duration and the win/loss, a number for the buy-in and the
    cash-out; no other field exists. *)
Definition field_ok (key : string) (v : pyval) : bool :=
  if bool_decide (key ∈ ["Date"; "Stakes"; "Table"; "Game Type"; "Hands"]) then
    match v with VStr _ => true | _ => false end
  else if bool_decide (key ∈ ["Duration"; "Winloss"]) then
    match v with VFloat _ => true | _ => false end
  else if bool_decide (key ∈ ["Buyin"; "Cashout"]) then
    match v with VStr _ => false | _ => true end
  else false.

(** The game type of a bag goes with its table name. *)
Definition game_type_of_table (s : session) : Prop :=
  match s !! "Table" with
  | Some (VStr t) => s !! "Game Type" = Some (VStr (parse_game_type t))
  | Some _ => False
  | None => s !! "Game Type" = None
  end.

(** ** Tables for the checks by enumeration *)

(** The integers [0 .. n-1]. *)
Definition range (n : nat) : list Z := Z.of_nat <$> seq 0 n.

(** The integer nearest to [m * 100 / 2^k], ties to the even one, by
    shifts. *)
Definition cents_shift (m k : positive) : Z :=
  let n := Zpos m * 100 in
  let q := Z.shiftr n (Zpos k) in
  let r := Z.land n (Z.ones (Zpos k)) in
  match 2 * r ?= Z.shiftl 1 (Zpos k) with
  | Lt => q
  | Gt => q + 1
  | Eq => if Z.even q then q else q + 1
  end.

(** [y], rounded to two places, is a number of hundredths within half a
    hundredth of an hour of [T] seconds. *)
Definition near_hours (T : Z) (y : float) : bool :=
  match y with
  | S754_zero false => T =? 0
  | S754_finite false m (Zneg k) =>
      let c := cents_shift m k in
      (0 <=? c) && (Z.abs (T - 36 * c) <=? 18)
  | _ => false
  end.

(** [s / 3600] for the seconds of a minute. *)
Definition seconds_table : list (Z * result float) :=
  (fun s => (s, int_truediv s 3600)) <$> range 60.

(** The check of [near_hours] on every duration below [H] hours. *)
Definition duration_table (H : nat) : bool :=
  forallb (fun m =>
    match int_truediv m 60 with
    | Ok a =>
        forallb (fun h =>
          match of_int h with
          | Ok x =>
              let u := fadd x a in
              let T0 := 3600 * h + 60 * m in
              forallb (fun sb : Z * result float =>
                         match sb.2 with
                         | Ok b => near_hours (T0 + sb.1) (fadd u b)
                         | Raise _ => false
                         end) seconds_table
          | Raise _ => false
          end) (range H)
    | Raise _ => false
    end) (range 60).

(** A big blind of [c] hundredths gives a buy-in of [c]: a hundred times
    the big blind rounds to [100 c] hundredths, which is the float [c]. *)
Definition whole_buyin (c : Z) : bool :=
  match fmul (hundredths c) (dyadic 100 0) with
  | S754_finite false m (Zneg k) =>
      (cents_shift m k =? 100 * c) && bool_decide (hundredths (100 * c) = dyadic c 0)
  | _ => false
  end.

(** The check of [whole_buyin] on the big blinds [0.01 .. n/100]. *)
Definition buyin_table (n : Z) : bool :=
  forallb whole_buyin (Z.of_nat <$> seq 1 (Z.to_nat n)).

(** ** A sample of the built-ins of the driver *)

Module SampleRun.

(** [sum] as a left fold of [+] from 0, which is what the interpreter does
    up to version 3.11. *)
Definition sum_left (vs : list pyval) : result pyval :=
  foldl (fun acc v => acc ≫= fun a => py_add a v) (Ok (VInt 0)) vs.

(** The built-ins, with the stand-in rendering of [Sample.show] for the
    two-decimal format. *)
Definition builtins : builtins := Builtins sum_left (fun v => Ok (Sample.show v)).

(** A disk without the input file. *)
Definition empty_disk : world := World ∅ [].

(** The script run on the standard output [K], over the sample disk and a
    document with the marked rows [rows]. *)
Definition main_on (K : console) (rows : list row) : exit :=
  @main K (Sample.lib rows) builtins CONFIG Sample.disk.

End SampleRun.

(** * Properties *)

(** ** The models of the built-ins on sample inputs *)

Example of_Z_samples : of_Z 2024 = "2024" /\ of_Z 0 = "0" /\ of_Z (-12) = "-12".
Proof. repeat split; reflexivity. Qed.

(** The samples of the specification's list of testable properties that
    are about the helpers: currency, stakes, dates. *)
Example helper_samples :
  parse_winloss "$1,234.50" = Ok (VFloat (dyadic 2469 (-1))) /\
  parse_winloss "-$5.00" = Ok (VFloat (dyadic (-5) 0)) /\
  parse_stakes "$0.05/ $0.1" = "0.05/0.1" /\
  (parse_date (Sample.lib []) "Nov 10, 23:00" (Some 2024) Sample.disk).2 = Ok "11/10/2024" /\
  (parse_date (Sample.lib []) "10 Nov" (Some 2024) Sample.disk).2 = Ok "".
Proof. repeat split; by_vm. Qed.

Example int_samples :
  py_int " 007 " = Ok 7 /\ py_int "-1_000" = Ok (-1000) /\
  raised (py_int "1__0") = true /\ raised (py_int "") = true /\
  raised (py_int "1.5") = true /\ raised (py_int "+ 5") = true.
Proof. repeat split; reflexivity. Qed.

Example float_samples :
  py_float "0.1" = Ok (S754_finite false 7205759403792794 (-56)) /\
  py_float "1234.50" = Ok (dyadic 2469 (-1)) /\
  py_float "-5.00" = Ok (dyadic (-5) 0) /\
  py_float "1e400" = Ok (S754_infinity false) /\
  py_float "-0" = Ok (S754_zero true) /\
  py_float ".5" = Ok (dyadic 1 (-1)) /\
  py_float "1_0.2_5e1" = Ok (dyadic 205 (-1)) /\
  raised (py_float "") = true /\ raised (py_float ".") = true /\
  raised (py_float "1e") = true /\ raised (py_float "0.05") = false /\
  raised (py_float "1_") = true /\ raised (py_float "abc") = true.
Proof. repeat split; vm_compute; reflexivity. Qed.

Example round_samples :
  fround2 (dyadic 1 (-3)) = S754_finite false 8646911284551352 (-56) /\
  py_float "0.12" = Ok (fround2 (dyadic 1 (-3))) /\
  py_float "0.38" = Ok (fround2 (dyadic 3 (-3))) /\
  (x ← py_float "2.675"; Ok (fround2 x)) = py_float "2.67" /\
  (x ← py_float "-0.001"; Ok (fround2 x)) = Ok (S754_zero true) /\
  fround2 (dyadic 3 (-1)) = dyadic 3 (-1).
Proof. repeat split; vm_compute; reflexivity. Qed.

Example strptime_samples :
  (Calendar.strftime_mdY <$> Calendar.strptime_bdY "Nov 10 2024") = Ok "11/10/2024" /\
  (Calendar.strftime_mdY <$> Calendar.strptime_bdY "feb  9 2024") = Ok "02/09/2024" /\
  raised (Calendar.strptime_bdY "Feb 30 2024") = true /\
  raised (Calendar.strptime_bdY "Nov 10 20245") = true /\
  raised (Calendar.strptime_bdY "Smarch 10 2024") = true /\
  raised (Calendar.strptime_bdY " 2024") = true.
Proof. repeat split; vm_compute; reflexivity. Qed.

(** ** Running the monad *)

Lemma bind_ok {A B} (m : M A) (f : A -> M B) w w' b :
  (m ≫= f) w = (w', Ok b) ->
  ∃ w1 a, m w = (w1, Ok a) ∧ f a w1 = (w', Ok b).
Proof.
  unfold mbind, M_bind. destruct (m w) as [w1 [a|e]]; [eauto | discriminate].
Qed.

Lemma bind_raise {A B} (m : M A) (f : A -> M B) w w' e :
  (m ≫= f) w = (w', Raise e) ->
  m w = (w', Raise e) ∨ ∃ w1 a, m w = (w1, Ok a) ∧ f a w1 = (w', Raise e).
Proof.
  unfold mbind, M_bind. destruct (m w) as [w1 [a|e']]; [eauto | ].
  intros [= -> ->]. by left.
Qed.

Lemma bind_step {A B} (m : M A) (f : A -> M B) w w1 a :
  m w = (w1, Ok a) -> (m ≫= f) w = f a w1.
Proof. unfold mbind, M_bind. by intros ->. Qed.

Lemma bind_abort {A B} (m : M A) (f : A -> M B) w w1 e :
  m w = (w1, Raise e) -> (m ≫= f) w = (w1, Raise e).
Proof. unfold mbind, M_bind. by intros ->. Qed.

Lemma bind_ext {A B} (m : M A) (f g : A -> M B) w :
  (∀ a w1, f a w1 = g a w1) -> (m ≫= f) w = (m ≫= g) w.
Proof. intros H. unfold mbind, M_bind. destruct (m w) as [w1 [a|e]]; auto. Qed.

Lemma bind_ext_l {A B} (m m' : M A) (f : A -> M B) w :
  m w = m' w -> (m ≫= f) w = (m' ≫= f) w.
Proof. unfold mbind, M_bind. by intros ->. Qed.

Lemma keeps_files_ret {A} (a : A) : keeps_files (mret a : M A).
Proof. by intros w w' r [= <- <-]. Qed.

Lemma keeps_files_lift {A} (r : result A) : keeps_files (lift r).
Proof. by intros w w' r' [= <- <-]. Qed.

Lemma keeps_files_print l : keeps_files (print l).
Proof. intros w w' r. unfold print. destruct (printable l); by intros [= <- <-]. Qed.

Lemma keeps_files_bind {A B} (m : M A) (f : A -> M B) :
  keeps_files m -> (∀ a, keeps_files (f a)) -> keeps_files (m ≫= f).
Proof.
  intros Hm Hf w w' r. unfold mbind, M_bind.
  destruct (m w) as [w1 [a|e]] eqn:E.
  - intros H. rewrite (Hf _ _ _ _ H). eauto.
  - intros [= <- <-]. eauto.
Qed.

Lemma keeps_files_parse_date L date_str year : keeps_files (parse_date L date_str year).
Proof.
  intros w w' r. unfold parse_date, try_except, lift.
  destruct (parse_date_body L date_str year); by intros [= <- <-].
Qed.

Lemma keeps_files_scan_cell L year s c : keeps_files (scan_cell L year s c).
Proof.
  unfold scan_cell.
  repeat case_match;
    repeat first [ apply keeps_files_bind; [|intros ?]
                 | apply keeps_files_ret | apply keeps_files_lift
                 | apply keeps_files_parse_date ].
Qed.

Lemma keeps_files_scan_cells L year cells : ∀ s, keeps_files (scan_cells L year s cells).
Proof.
  induction cells as [|c cells IH]; intros s; simpl.
  - apply keeps_files_ret.
  - apply keeps_files_bind; [apply keeps_files_scan_cell | auto].
Qed.

Lemma keeps_files_close_row d idx s acc : keeps_files (close_row d idx s acc).
Proof.
  unfold close_row. case_bool_decide; [apply keeps_files_ret|].
  repeat first [ apply keeps_files_bind; [|intros ?]
               | apply keeps_files_ret | apply keeps_files_lift
               | apply keeps_files_print ].
Qed.

Lemma keeps_files_scan_rows L year d rows : ∀ idx acc, keeps_files (scan_rows L year d idx rows acc).
Proof.
  induction rows as [|r rows IH]; intros idx acc; simpl.
  - apply keeps_files_ret.
  - apply keeps_files_bind; [apply keeps_files_scan_cells | intros s].
    apply keeps_files_bind; [apply keeps_files_close_row | auto].
Qed.

(** ** The end of a row *)

Lemma get_closed s buyin cashout key dflt :
  key ≠ "Buyin" -> key ≠ "Cashout" ->
  get (closed s buyin cashout) key dflt = get s key dflt.
Proof.
  intros ??. unfold get, closed. by rewrite !lookup_insert_ne.
Qed.

Lemma close_row_ok d idx s acc w w' acc' :
  close_row d idx s acc w = (w', Ok acc') ->
  (s = ∅ ∧ acc' = acc ∧ w' = w) ∨
  (s ≠ ∅ ∧ ∃ buyin cashout,
     choose_buyin d s = Ok buyin ∧
     (py_add buyin (get s "Winloss" (VInt 0)) ≫= py_round2) = Ok cashout ∧
     acc' = (acc ++ [closed s buyin cashout])%list).
Proof.
  unfold close_row. case_bool_decide as Hs.
  - intros [= <- <-]. by left.
  - intros H. right. split; [done|].
    apply bind_ok in H as (w1 & buyin & Hb & H). injection Hb as <- Hb.
    apply bind_ok in H as (w2 & cashout & Hc & H). injection Hc as <- Hc.
    apply bind_ok in H as (w3 & b & _ & H).
    apply bind_ok in H as (w4 & c & _ & H).
    apply bind_ok in H as (w5 & [] & _ & H). injection H as _ <-.
    exists buyin, cashout. split_and!; [done| |done].
    rewrite <- Hc. unfold get. by rewrite lookup_insert_ne.
Qed.

Lemma close_row_raise d idx s acc w w' e :
  close_row d idx s acc w = (w', Raise e) ->
  w' = w ∧ s ≠ ∅ ∧
  (choose_buyin d s = Raise e ∨
   ∃ buyin, choose_buyin d s = Ok buyin ∧
            (py_add buyin (get s "Winloss" (VInt 0)) ≫= py_round2) = Raise e).
Proof.
  unfold close_row. case_bool_decide as Hs; [discriminate|].
  unfold mbind at 1, M_bind, lift.
  destruct (choose_buyin d s) as [buyin|e0] eqn:Hb; [|intros [= <- <-]; eauto].
  unfold mbind at 1, M_bind.
  assert (get (<["Buyin":=buyin]> s) "Winloss" (VInt 0) = get s "Winloss" (VInt 0)) as ->.
  { unfold get. by rewrite lookup_insert_ne. }
  destruct (py_add buyin (get s "Winloss" (VInt 0)) ≫= py_round2) as [cashout|e0] eqn:Hc.
  - unfold mbind, M_bind, item. rewrite lookup_insert_ne, lookup_insert_eq by done.
    rewrite lookup_insert_eq. discriminate.
  - intros [= <- <-]. split_and!; eauto.
Qed.

Lemma close_row_skip d idx acc w : close_row d idx ∅ acc w = (w, Ok acc).
Proof. unfold close_row. by rewrite bool_decide_eq_true_2. Qed.

Lemma closed_cashout_invariant s buyin cashout :
  (py_add buyin (get s "Winloss" (VInt 0)) ≫= py_round2) = Ok cashout ->
  cashout_invariant (closed s buyin cashout).
Proof.
  intros H. exists buyin, cashout. rewrite get_closed by done.
  unfold closed. by rewrite lookup_insert_ne, !lookup_insert_eq.
Qed.

(** Whatever holds of every record a row appends holds of the accumulator
    after the loop. *)
Lemma scan_rows_Forall (P : session -> Prop) L year d rows :
  (∀ s buyin cashout,
     s ≠ ∅ -> choose_buyin d s = Ok buyin ->
     (py_add buyin (get s "Winloss" (VInt 0)) ≫= py_round2) = Ok cashout ->
     P (closed s buyin cashout)) ->
  ∀ idx acc w w' acc',
    scan_rows L year d idx rows acc w = (w', Ok acc') ->
    Forall P acc -> Forall P acc'.
Proof.
  intros HP. induction rows as [|r rows IH]; intros idx acc w w' acc'; simpl.
  - by intros [= _ <-].
  - intros H Hacc.
    apply bind_ok in H as (w1 & s & _ & H).
    apply bind_ok in H as (w2 & acc1 & Hrow & H).
    eapply IH; [done|].
    apply close_row_ok in Hrow as [(_ & -> & _)|(Hs & buyin & cashout & Hb & Hc & ->)]; [done|].
    apply Forall_app. split; [done|]. apply Forall_singleton. eauto.
Qed.

(** The list the converter returns is the accumulator of its loop. *)
Lemma convert_returns L html_file output_csv year d location bankroll w w' l :
  convert_pokercraft_to_bink L html_file output_csv year d location bankroll w = (w', Ok l) ->
  l = [] ∨
  ∃ text w1, files w !! html_file = Some text ∧
    scan_rows L year d O (find_rows L text) [] w = (w1, Ok l).
Proof.
  unfold convert_pokercraft_to_bink. intros H.
  apply bind_ok in H as (w0 & text & Hread & H).
  unfold read_file in Hread. destruct (files w !! html_file) as [t|] eqn:Hf; [|discriminate].
  injection Hread as <- <-.
  destruct (find_rows L t) as [|r rows] eqn:Hrows.
  - apply bind_ok in H as (? & [] & _ & H). injection H as _ <-. by left.
  - apply bind_ok in H as (w1 & sessions & Hscan & H).
    destruct sessions as [|s sessions].
    + apply bind_ok in H as (? & [] & _ & H). injection H as _ <-. by left.
    + right. exists t, w1. split; [done|].
      repeat (apply bind_ok in H as (? & [] & _ & H)). injection H as _ <-.
      by rewrite Hrows.
Qed.

(** ** C1: the cash-out invariant *)

(** C1.  Every Session Record in the list returned by
    [convert_pokercraft_to_bink] has its [Cashout] field equal to
    [round(Buyin + Winloss, 2)], where an unset [Winloss] counts as 0. *)
Theorem cashout_is_rounded_buyin_plus_winloss
    L html_file output_csv year default_buy_in location bankroll w w' sessions :
  convert_pokercraft_to_bink L html_file output_csv year default_buy_in
    location bankroll w = (w', Ok sessions) ->
  Forall cashout_invariant sessions.
Proof.
  intros H. apply convert_returns in H as [->|(text & w1 & _ & H)]; [done|].
  eapply (scan_rows_Forall cashout_invariant); [|done|done].
  intros s buyin cashout _ _. apply closed_cashout_invariant.
Qed.

Lemma cashout_is_rounded_buyin_plus_winloss_witness :
  Forall cashout_invariant [Sample.full_session].
Proof.
  apply (cashout_is_rounded_buyin_plus_winloss
           (Sample.lib [Sample.full_row]) "pokercraft_sessions.html" "bink_import.csv"
           (Some 2024) None "Natural8" "Natural8" Sample.disk
           (Sample.run [Sample.full_row] (Some 2024) None).1).
  by_vm.
Defined.

(** ** C2 and C3: where the buy-in comes from *)

Lemma estimated_buyin_closed s buyin cashout :
  estimated_buyin (closed s buyin cashout) = estimated_buyin s.
Proof. unfold estimated_buyin. by rewrite get_closed. Qed.

Lemma lookup_buyin_closed s buyin cashout :
  closed s buyin cashout !! "Buyin" = Some buyin.
Proof. unfold closed. by rewrite lookup_insert_ne, lookup_insert_eq. Qed.

Lemma returned_buyin_rule
    L html_file output_csv year default_buy_in location bankroll w w' sessions :
  convert_pokercraft_to_bink L html_file output_csv year default_buy_in
    location bankroll w = (w', Ok sessions) ->
  Forall (buyin_if_nonzero default_buy_in) sessions.
Proof.
  intros H. apply convert_returns in H as [->|(text & w1 & _ & H)]; [done|].
  eapply (scan_rows_Forall (buyin_if_nonzero default_buy_in)); [|done|done].
  intros s buyin cashout _ Hb _. unfold buyin_if_nonzero, choose_buyin in *.
  rewrite estimated_buyin_closed, lookup_buyin_closed.
  destruct default_buy_in as [b|]; [destruct (truthy b)|]; by simplify_eq; eauto.
Qed.

(** C2, as amended.  For every row that yielded at least one field and whose
    record is returned, [Buyin] is [default_buy_in] whenever that argument
    was provided and is not zero, and otherwise (absent, or zero) the value
    of [estimate_buyin_from_stakes] on the record's [Stakes] field. *)
Theorem buyin_is_nonzero_default_or_estimate
    L html_file output_csv year default_buy_in location bankroll w w' sessions :
  convert_pokercraft_to_bink L html_file output_csv year default_buy_in
    location bankroll w = (w', Ok sessions) ->
  Forall (buyin_if_nonzero default_buy_in) sessions.
Proof. apply returned_buyin_rule. Qed.

Lemma buyin_is_nonzero_default_or_estimate_witness :
  Forall (buyin_if_nonzero (Some (VInt 20))) [Sample.hands_session].
Proof.
  apply (buyin_is_nonzero_default_or_estimate
           (Sample.lib [Sample.hands_row]) "pokercraft_sessions.html" "bink_import.csv"
           (Some 2024) (Some (VInt 20)) "Natural8" "Natural8" Sample.disk
           (Sample.run [Sample.hands_row] (Some 2024) (Some (VInt 20))).1).
  by_vm.
Defined.

(** C2 as stated fails: with [default_buy_in = 0] provided, the fully
    populated sample row gets the estimated buy-in 10.0, not 0. *)
Lemma provided_zero_default_is_not_the_buyin :
  (Sample.run [Sample.full_row] (Some 2024) (Some (VInt 0))).2 = Ok [Sample.full_session] ∧
  ¬ Forall (buyin_if_provided (Some (VInt 0))) [Sample.full_session].
Proof.
  split; [by_vm|].
  intros H. rewrite Forall_singleton in H. unfold buyin_if_provided in H.
  vm_compute in H. discriminate H.
Qed.

Lemma choose_buyin_zero (zero : pyval) s :
  truthy zero = false -> choose_buyin (Some zero) s = choose_buyin None s.
Proof. unfold choose_buyin. by intros ->. Qed.

Lemma scan_rows_same_buyin L year d d' rows :
  (∀ s, choose_buyin d s = choose_buyin d' s) ->
  ∀ idx acc w, scan_rows L year d idx rows acc w = scan_rows L year d' idx rows acc w.
Proof.
  intros Hd. induction rows as [|r rows IH]; intros idx acc w; simpl; [done|].
  apply bind_ext. intros s w1.
  assert (close_row d idx s acc = close_row d' idx s acc) as ->.
  { unfold close_row. by rewrite Hd. }
  apply bind_ext. intros acc1 w2. apply IH.
Qed.

(** C3.  A [default_buy_in] of [0] or [0.0] is not used: the converter runs
    exactly as with the argument absent, and every record it returns has the
    buy-in that [estimate_buyin_from_stakes] gives for its [Stakes]. *)
Theorem zero_default_buy_in_is_ignored
    L html_file output_csv year (zero : pyval) location bankroll w :
  zero = VInt 0 ∨ zero = VFloat (S754_zero false) ->
  convert_pokercraft_to_bink L html_file output_csv year (Some zero) location bankroll w
  = convert_pokercraft_to_bink L html_file output_csv year None location bankroll w
  ∧ ∀ w' sessions,
      convert_pokercraft_to_bink L html_file output_csv year (Some zero)
        location bankroll w = (w', Ok sessions) ->
      Forall (fun s => ∃ b, s !! "Buyin" = Some b ∧ estimated_buyin s = Ok b) sessions.
Proof.
  intros Hz. assert (truthy zero = false) as Hf by (by destruct Hz as [->| ->]).
  split.
  - unfold convert_pokercraft_to_bink. apply bind_ext. intros text w0.
    destruct (find_rows L text) as [|r rows]; [done|].
    apply bind_ext_l, scan_rows_same_buyin.
    intros s. by apply choose_buyin_zero.
  - intros w' sessions H.
    apply returned_buyin_rule in H.
    unfold buyin_if_nonzero in H. by rewrite Hf in H.
Qed.

Lemma zero_default_buy_in_is_ignored_witness :
  Sample.run [Sample.full_row] (Some 2024) (Some (VInt 0))
  = Sample.run [Sample.full_row] (Some 2024) None
  ∧ Forall (fun s => ∃ b, s !! "Buyin" = Some b ∧ estimated_buyin s = Ok b)
           [Sample.full_session].
Proof.
  destruct (zero_default_buy_in_is_ignored
              (Sample.lib [Sample.full_row]) "pokercraft_sessions.html" "bink_import.csv"
              (Some 2024) (VInt 0) "Natural8" "Natural8" Sample.disk
              (or_introl eq_refl)) as [Hsame Hest].
  split; [exact Hsame|].
  apply (Hest (Sample.run [Sample.full_row] (Some 2024) (Some (VInt 0))).1).
  by_vm.
Defined.

(** ** C4: durations *)

(** C4.  [parse_duration] splits its (stripped) input on [":"]; three
    numeric parts [h:m:s] give [h + m/60 + s/3600] rounded to two places;
    two numeric parts are hours and minutes, with no seconds; so
    ["01:30:00"] is 1.5 and ["00:45"] is 0.75, not the 45 seconds it would
    be as minutes and seconds. *)
Theorem parse_duration_hours_minutes_seconds :
  (∀ d hs ms ss h m s,
     split ":" (strip d) = [hs; ms; ss] ->
     py_int hs = Ok h -> py_int ms = Ok m -> py_int ss = Ok s ->
     parse_duration d = decimal_hours h m s) ∧
  (∀ d hs ms h m,
     split ":" (strip d) = [hs; ms] ->
     py_int hs = Ok h -> py_int ms = Ok m ->
     parse_duration d = decimal_hours h m 0) ∧
  parse_duration "01:30:00" = Ok (VFloat (dyadic 3 (-1))) ∧
  parse_duration "00:45" = Ok (VFloat (dyadic 3 (-2))) ∧
  parse_duration "00:45" ≠ decimal_hours 0 0 45.
Proof.
  split_and!.
  - intros d hs ms ss h m s Hparts Hh Hm Hs.
    unfold parse_duration, decimal_hours. rewrite Hparts. simpl.
    by rewrite Hh, Hm, Hs.
  - intros d hs ms h m Hparts Hh Hm.
    unfold parse_duration, decimal_hours. rewrite Hparts. simpl.
    by rewrite Hh, Hm.
  - by_vm.
  - by_vm.
  - vm_compute. discriminate.
Qed.

Lemma parse_duration_hours_minutes_seconds_witness :
  parse_duration " 2:15:36 " = decimal_hours 2 15 36 ∧
  parse_duration "7:05" = decimal_hours 7 5 0.
Proof.
  destruct parse_duration_hours_minutes_seconds as (H3 & H2 & _).
  split.
  - apply (H3 " 2:15:36 " "2" "15" "36"); reflexivity.
  - apply (H2 "7:05" "7" "05"); reflexivity.
Defined.

(** ** C9: the estimated buy-in *)

(** C9.  [estimate_buyin_from_stakes] drops every ["$"], splits on ["/"],
    reads the second part as the big blind, multiplies it by 100 and rounds
    to two places; ["0.05/0.1"] gives 10.0. *)
Theorem estimate_is_hundred_big_blinds :
  (∀ stakes small big rest x,
     split "/" (remove "$" stakes) = small :: big :: rest ->
     py_float big = Ok x ->
     estimate_buyin_from_stakes stakes = Ok (VFloat (fround2 (fmul x (dyadic 100 0))))) ∧
  estimate_buyin_from_stakes "0.05/0.1" = Ok (VFloat (dyadic 10 0)) ∧
  estimate_buyin_from_stakes "$0.05/$0.1" = Ok (VFloat (dyadic 10 0)).
Proof.
  split_and!.
  - intros stakes small big rest x Hparts Hx.
    unfold estimate_buyin_from_stakes. rewrite Hparts. simpl. by rewrite Hx.
  - by_vm.
  - by_vm.
Qed.

Lemma estimate_is_hundred_big_blinds_witness :
  estimate_buyin_from_stakes "$1/$2"
  = Ok (VFloat (fround2 (fmul (dyadic 2 0) (dyadic 100 0)))).
Proof.
  destruct estimate_is_hundred_big_blinds as (H & _).
  apply (H "$1/$2" "1" "2" []); reflexivity.
Defined.

(** ** C8: the game type *)

Lemma starts_with_spec p s :
  starts_with p s = true ↔ ∃ post, s = p +:+ post.
Proof.
  revert s. induction p as [|a p IH]; intros s; simpl.
  - split; [eauto|done].
  - destruct s as [|b s].
    + split; [done|]. by intros [post [=]].
    + rewrite andb_true_iff, IH. split.
      * intros [Hab [post ->]]. apply Ascii.eqb_eq in Hab as ->. eauto.
      * intros [post [= -> ->]]. split; [apply Ascii.eqb_refl|eauto].
Qed.

Lemma contains_spec p s :
  contains p s = true ↔ ∃ pre post, s = pre +:+ p +:+ post.
Proof.
  induction s as [|c s IH].
  - simpl. rewrite orb_false_r, starts_with_spec. split.
    + intros [post ->]. by exists "", post.
    + intros (pre & post & H). destruct pre; [eauto|discriminate].
  - cbn [contains]. rewrite orb_true_iff, starts_with_spec, IH. split.
    + intros [[post ->]|(pre & post & ->)].
      * by exists "", post.
      * by exists (String c pre), post.
    + intros (pre & post & H). destruct pre as [|c' pre].
      * left. eauto.
      * right. injection H as -> ->. eauto.
Qed.

Lemma upper_app a b : upper (a +:+ b) = upper a +:+ upper b.
Proof. induction a as [|c a IH]; simpl; [done|]. by rewrite IH. Qed.

Lemma upper_split t : ∀ a b,
  upper t = a +:+ b -> ∃ t1 t2, t = t1 +:+ t2 ∧ upper t1 = a ∧ upper t2 = b.
Proof.
  induction t as [|c t IH]; intros a b; simpl.
  - destruct a; [|discriminate]. change ("" +:+ b) with b. intros <-. by exists "", "".
  - destruct a as [|c' a].
    + change ("" +:+ b) with b. intros <-. by exists "", (String c t).
    + intros [= <- H]. apply IH in H as (t1 & t2 & -> & <- & <-).
      by exists (String c t1), t2.
Qed.

(** The test [PAT in table_name.upper()] of the code is the match of [PAT]
    in [table_name] with case ignored. *)
Lemma contains_upper pat t :
  contains (upper pat) (upper t) = true ↔ occurs_ignoring_case pat t.
Proof.
  rewrite contains_spec. unfold occurs_ignoring_case. split.
  - intros (pre & post & H).
    apply upper_split in H as (t1 & t23 & -> & _ & H).
    apply upper_split in H as (t2 & t3 & -> & H & _). eauto.
  - intros (pre & mid & post & -> & H).
    exists (upper pre), (upper post). by rewrite !upper_app, H.
Qed.

Lemma contains_upper_false pat t :
  contains (upper pat) (upper t) = false ↔ ¬ occurs_ignoring_case pat t.
Proof. rewrite <- contains_upper. by destruct (contains _ _). Qed.

(** C8.  [parse_game_type] matches the table name with case ignored: a name
    with [NLH], [HOLDEM] or [HOLD'EM] in it is Texas Hold'em; otherwise one
    with [PLO] or [OMAHA] in it is Omaha; any other is Texas Hold'em. *)
Theorem parse_game_type_by_substring table_name :
  let holdem := occurs_ignoring_case "NLH" table_name
                ∨ occurs_ignoring_case "HOLDEM" table_name
                ∨ occurs_ignoring_case "HOLD'EM" table_name in
  let omaha := occurs_ignoring_case "PLO" table_name
               ∨ occurs_ignoring_case "OMAHA" table_name in
  (holdem -> parse_game_type table_name = "Texas Hold'em") ∧
  (¬ holdem -> omaha -> parse_game_type table_name = "Omaha") ∧
  (¬ holdem -> ¬ omaha -> parse_game_type table_name = "Texas Hold'em").
Proof.
  intros holdem omaha. subst holdem omaha. unfold parse_game_type.
  pose proof (contains_upper "NLH" table_name) as H1.
  pose proof (contains_upper "HOLDEM" table_name) as H2.
  pose proof (contains_upper "HOLD'EM" table_name) as H3.
  pose proof (contains_upper "PLO" table_name) as H4.
  pose proof (contains_upper "OMAHA" table_name) as H5.
  change (upper "NLH") with "NLH" in H1. change (upper "HOLDEM") with "HOLDEM" in H2.
  change (upper "HOLD'EM") with "HOLD'EM" in H3. change (upper "PLO") with "PLO" in H4.
  change (upper "OMAHA") with "OMAHA" in H5.
  destruct (contains "NLH" _), (contains "HOLDEM" _), (contains "HOLD'EM" _),
    (contains "PLO" _), (contains "OMAHA" _); simpl;
    intuition (try reflexivity; discriminate).
Qed.

Lemma parse_game_type_by_substring_witness :
  parse_game_type "NLH 6-Max" = "Texas Hold'em" ∧
  parse_game_type "PLO Omaha Hi" = "Omaha" ∧
  parse_game_type "Short Deck 5" = "Texas Hold'em".
Proof.
  split_and!.
  - pose proof (parse_game_type_by_substring "NLH 6-Max") as H.
    cbv zeta in H. destruct H as (H & _ & _).
    apply H. left. by exists "", "NLH", " 6-Max".
  - pose proof (parse_game_type_by_substring "PLO Omaha Hi") as H.
    cbv zeta in H. destruct H as (_ & H & _).
    apply H.
    + rewrite <- !contains_upper. vm_compute. by intros [|[|]].
    + left. by exists "", "PLO", " Omaha Hi".
  - pose proof (parse_game_type_by_substring "Short Deck 5") as H.
    cbv zeta in H. destruct H as (_ & _ & H).
    apply H.
    + rewrite <- !contains_upper. vm_compute. by intros [|[|]].
    + rewrite <- !contains_upper. vm_compute. by intros [|].
Defined.

(** ** C5: dates never abort a run *)

Lemma parse_date_run L date_str year w :
  parse_date L date_str year w =
  match parse_date_body L date_str year with
  | Ok d => (w, Ok d)
  | Raise e =>
      (World (files w)
         (stdout w ++ [[Text "Error parsing date '"; Fmt (VStr date_str);
                        Text "': "; FmtExn e]])%list,
       Ok "")
  end.
Proof.
  unfold parse_date, try_except, lift.
  by destruct (parse_date_body L date_str year).
Qed.

Lemma parse_date_returns L date_str year w :
  ∃ w' d, parse_date L date_str year w = (w', Ok d).
Proof. rewrite parse_date_run. destruct (parse_date_body _ _ _); eauto. Qed.

Lemma same_but_date_lookup s s' key :
  same_but_date s s' -> key ≠ "Date" -> s !! key = s' !! key.
Proof.
  intros [H _] Hk.
  rewrite <- (lookup_delete_ne s "Date" key), <- (lookup_delete_ne s' "Date" key) by done.
  by rewrite H.
Qed.

Lemma same_but_date_get s s' key dflt :
  same_but_date s s' -> key ≠ "Date" -> get s key dflt = get s' key dflt.
Proof. intros. unfold get. by erewrite same_but_date_lookup. Qed.

Lemma same_but_date_insert s s' key v :
  same_but_date s s' -> key ≠ "Date" ->
  same_but_date (<[key := v]> s) (<[key := v]> s').
Proof.
  intros [H1 H2] Hk. split.
  - by rewrite !(delete_insert_ne _ "Date" key), H1.
  - by rewrite !lookup_insert_ne.
Qed.

Lemma same_but_date_set s s' d d' :
  same_but_date s s' -> same_but_date (<["Date" := d]> s) (<["Date" := d']> s').
Proof.
  intros [H1 _]. split.
  - by rewrite !delete_insert_eq, H1.
  - rewrite !lookup_insert_eq. by split; eauto.
Qed.

Lemma same_but_date_empty s s' : same_but_date s s' -> s = ∅ ↔ s' = ∅.
Proof.
  assert (∀ a b : session, same_but_date a b -> a = ∅ -> b = ∅) as Hone.
  { intros a b [H1 H2] ->. apply map_eq. intros k. rewrite lookup_empty.
    destruct (decide (k = "Date")) as [->|Hk].
    - rewrite lookup_empty in H2. destruct (b !! "Date") eqn:E; [|done].
      destruct H2 as [_ H2]. destruct H2 as [? [=]]. eauto.
    - rewrite <- (lookup_delete_ne b "Date" k), <- H1 by done.
      by rewrite lookup_delete_ne, lookup_empty. }
  intros H. split; apply Hone; [done|].
  destruct H as [H1 H2]. by split.
Qed.

(** The cell loop routes a cell by its column. *)
Lemma scan_cell_by_column L year s c :
  scan_cell L year s c =
  match column_of c with
  | Some SessionStart =>
      match tooltip c with
      | Some date_text =>
          d ← parse_date L (join " " (split_ws date_text)) year;
          mret (<["Date" := VStr d]> s)
      | None => mret s
      end
  | Some Stakes => mret (<["Stakes" := VStr (parse_stakes (text c))]> s)
  | Some Table =>
      mret (<["Game Type" := VStr (parse_game_type (text c))]>
              (<["Table" := VStr (text c)]> s))
  | Some Hands => mret (<["Hands" := VStr (text c)]> s)
  | Some Duration => d ← lift (parse_duration (text c)); mret (<["Duration" := d]> s)
  | Some Winloss => x ← lift (parse_winloss (text c)); mret (<["Winloss" := x]> s)
  | None => mret s
  end.
Proof. unfold scan_cell, column_of. by repeat case_match. Qed.

Lemma scan_cell_agree L L' year year' c c' s s' w w' :
  same_but_date_text c c' ->
  same_but_date s s' ->
  agree same_but_date (scan_cell L year s c w).2 (scan_cell L' year' s' c' w').2.
Proof.
  intros (Hc & Ht & Htip) Hs.
  assert (column_of c' = column_of c) as Hcol.
  { unfold column_of, has_class. by rewrite Hc. }
  rewrite !scan_cell_by_column, Hcol.
  destruct (column_of c) as [[]|]; simpl;
    try (destruct Ht as [?|Ht]; [done|]; rewrite Ht);
    try (by repeat apply same_but_date_insert).
  - destruct (tooltip c) as [t|], (tooltip c') as [t'|]; simpl.
    + destruct (parse_date_returns L (join " " (split_ws t)) year w) as (w1 & d & E).
      destruct (parse_date_returns L' (join " " (split_ws t')) year' w') as (w1' & d' & E').
      rewrite (bind_step _ _ _ _ _ E), (bind_step _ _ _ _ _ E'). simpl.
      by apply same_but_date_set.
    + destruct Htip as [Htip _]. by destruct Htip; eauto.
    + destruct Htip as [_ Htip]. by destruct Htip; eauto.
    + done.
  - unfold mbind, M_bind, lift. destruct (parse_duration (text c')); simpl; [|done].
    by apply same_but_date_insert.
  - unfold mbind, M_bind, lift. destruct (parse_winloss (text c')); simpl; [|done].
    by apply same_but_date_insert.
Qed.

Lemma scan_cells_agree L L' year year' r r' :
  same_but_dates r r' ->
  ∀ s s' w w', same_but_date s s' ->
    agree same_but_date (scan_cells L year s r w).2 (scan_cells L' year' s' r' w').2.
Proof.
  induction 1 as [|c c' r r' Hc Hr IH]; intros s s' w w' Hs; simpl; [done|].
  pose proof (scan_cell_agree L L' year year' c c' s s' w w' Hc Hs) as H.
  unfold mbind, M_bind.
  destruct (scan_cell L year s c w) as [w1 [t|e]],
           (scan_cell L' year' s' c' w') as [w1' [t'|e']]; simpl in *; try done.
  by apply IH.
Qed.

Lemma choose_buyin_same_but_date d s s' :
  same_but_date s s' -> choose_buyin d s = choose_buyin d s'.
Proof. intros H. unfold choose_buyin. by rewrite (same_but_date_get s s'). Qed.

Lemma close_row_agree d idx idx' s s' acc acc' w w' :
  same_but_date s s' -> Forall2 same_but_date acc acc' ->
  agree (Forall2 same_but_date)
    (close_row d idx s acc w).2 (close_row d idx' s' acc' w').2.
Proof.
  intros Hs Hacc.
  destruct (close_row d idx s acc w) as [w1 [l|e]] eqn:E,
           (close_row d idx' s' acc' w') as [w1' [l'|e']] eqn:E'; simpl.
  - apply close_row_ok in E as [(Hem & -> & _)|(Hne & b & c & Hb & Hc & ->)];
    apply close_row_ok in E' as [(Hem' & -> & _)|(Hne' & b' & c' & Hb' & Hc' & ->)].
    + done.
    + by apply (same_but_date_empty _ _ Hs) in Hem.
    + by apply (same_but_date_empty _ _ Hs) in Hem'.
    + rewrite (choose_buyin_same_but_date d s s' Hs), Hb' in Hb. injection Hb as ->.
      rewrite (same_but_date_get s s'), Hc' in Hc by done. injection Hc as ->.
      apply Forall2_app; [done|]. apply Forall2_cons_2; [|done].
      by repeat apply same_but_date_insert.
  - apply close_row_raise in E' as (_ & Hne' & Hr).
    apply close_row_ok in E as [(Hem & _ & _)|(_ & b & c & Hb & Hc & _)].
    + by apply (same_but_date_empty _ _ Hs) in Hem.
    + rewrite (choose_buyin_same_but_date d s s' Hs) in Hb.
      rewrite (same_but_date_get s s') in Hc by done.
      destruct Hr as [Hr|(b' & Hb' & Hr)]; [congruence|].
      rewrite Hb' in Hb. injection Hb as ->. congruence.
  - apply close_row_raise in E as (_ & Hne & Hr).
    apply close_row_ok in E' as [(Hem' & _ & _)|(_ & b' & c' & Hb' & Hc' & _)].
    + by apply (same_but_date_empty _ _ Hs) in Hem'.
    + rewrite (choose_buyin_same_but_date d s s' Hs) in Hr.
      rewrite (same_but_date_get s s') in Hr by done.
      destruct Hr as [Hr|(b & Hb & Hr)]; [congruence|].
      rewrite Hb' in Hb. injection Hb as <-. congruence.
  - apply close_row_raise in E as (_ & _ & Hr).
    apply close_row_raise in E' as (_ & _ & Hr').
    rewrite (choose_buyin_same_but_date d s s' Hs) in Hr.
    rewrite (same_but_date_get s s') in Hr by done.
    destruct Hr as [Hr|(b & Hb & Hr)], Hr' as [Hr'|(b' & Hb' & Hr')]; congruence.
Qed.

Lemma scan_rows_agree L L' year year' d rows rows' :
  Forall2 same_but_dates rows rows' ->
  ∀ idx idx' acc acc' w w', Forall2 same_but_date acc acc' ->
    agree (Forall2 same_but_date)
      (scan_rows L year d idx rows acc w).2 (scan_rows L' year' d idx' rows' acc' w').2.
Proof.
  induction 1 as [|r r' rows rows' Hr Hrows IH]; intros idx idx' acc acc' w w' Hacc;
    simpl; [done|].
  assert (same_but_date ∅ ∅) as H0 by done.
  pose proof (scan_cells_agree L L' year year' r r' Hr ∅ ∅ w w' H0) as H.
  unfold mbind at 1 3, M_bind.
  destruct (scan_cells L year ∅ r w) as [w1 [s|e]],
           (scan_cells L' year' ∅ r' w') as [w1' [s'|e']]; simpl in *; try done.
  pose proof (close_row_agree d idx idx' s s' acc acc' w1 w1' H Hacc) as H'.
  unfold mbind, M_bind.
  destruct (close_row d idx s acc w1) as [w2 [l|e]],
           (close_row d idx' s' acc' w1') as [w2' [l'|e']]; simpl in *; try done.
  by apply IH.
Qed.

(** ** What the converter writes *)

Lemma append_assoc (a b c : string) : (a +:+ b) +:+ c = a +:+ (b +:+ c).
Proof.
  induction a as [|x a IH]; [done|].
  change (String x ((a +:+ b) +:+ c) = String x (a +:+ (b +:+ c))). by rewrite IH.
Qed.

Lemma append_empty_r (a : string) : a +:+ "" = a.
Proof.
  induction a as [|x a IH]; [done|].
  change (String x (a +:+ "") = String x a). by rewrite IH.
Qed.

Lemma write_records_run L path recs : ∀ w c,
  files w !! path = Some c ->
  write_records L path recs w =
  (World (<[path := c +:+ csv_text L recs]> (files w)) (stdout w), Ok tt).
Proof.
  induction recs as [|r recs IH]; intros w c Hc; simpl.
  - rewrite append_empty_r, insert_id by done. by destruct w.
  - unfold mbind, M_bind, write at 1. rewrite Hc. simpl.
    rewrite (IH _ (c +:+ csv_line L r)) by (simpl; apply lookup_insert_eq).
    simpl. by rewrite insert_insert_eq, append_assoc.
Qed.

(** The last lines of the converter, 154-205, from a non-empty accumulator:
    the file is created with the header and one line per record. *)
Lemma convert_writes L html_file output_csv year d location bankroll w text w1 s l :
  files w !! html_file = Some text ->
  scan_rows L year d O (find_rows L text) [] w = (w1, Ok (s :: l)) ->
  ∃ out,
    convert_pokercraft_to_bink L html_file output_csv year d location bankroll w
    = (World (<[output_csv := csv_text L ((VStr <$> fieldnames)
                                :: (csv_record location bankroll <$> s :: l))]> (files w)) out,
       Ok (s :: l)).
Proof.
  intros Hf Hscan. unfold convert_pokercraft_to_bink.
  unfold mbind at 1, M_bind, read_file. rewrite Hf.
  destruct (find_rows L text) as [|r rows] eqn:Hrows.
  { simpl in Hscan. by injection Hscan. }
  pose proof (keeps_files_scan_rows L year d (r :: rows) O [] w w1 _ Hscan) as Hkeep.
  rewrite (bind_step _ _ _ _ _ Hscan).
  erewrite (bind_step (open_w _)) by reflexivity.
  erewrite (bind_step (write _ _)) by reflexivity.
  erewrite (bind_step (write_records _ _ _))
    by (apply write_records_run; simpl; apply lookup_insert_eq).
  erewrite (bind_step (print _)) by reflexivity.
  simpl. rewrite lookup_insert_eq, !insert_insert_eq, Hkeep. simpl. eauto.
Qed.

(** The converter returns an empty list without touching the files when no
    row is marked or no row yields a record. *)
Lemma convert_nothing L html_file output_csv year d location bankroll w text :
  files w !! html_file = Some text ->
  (find_rows L text = [] ∨
   ∃ w1, scan_rows L year d O (find_rows L text) [] w = (w1, Ok [])) ->
  ∃ w', convert_pokercraft_to_bink L html_file output_csv year d location bankroll w
        = (w', Ok []) ∧ files w' = files w.
Proof.
  intros Hf H. unfold convert_pokercraft_to_bink.
  unfold mbind at 1, M_bind, read_file. rewrite Hf.
  destruct (find_rows L text) as [|r rows] eqn:Hrows.
  { eexists. split; [reflexivity|done]. }
  destruct H as [|[w1 Hscan]]; [done|].
  pose proof (keeps_files_scan_rows L year d (r :: rows) O [] w w1 _ Hscan) as Hkeep.
  rewrite (bind_step _ _ _ _ _ Hscan).
  eexists. split; [reflexivity|done].
Qed.

(** An exception of the loop over the rows leaves the converter as it is:
    nothing catches it, and nothing is written. *)
Lemma convert_aborts L html_file output_csv year d location bankroll w text w1 e :
  files w !! html_file = Some text ->
  scan_rows L year d O (find_rows L text) [] w = (w1, Raise e) ->
  convert_pokercraft_to_bink L html_file output_csv year d location bankroll w
  = (w1, Raise e) ∧ files w1 = files w.
Proof.
  intros Hf Hscan.
  pose proof (keeps_files_scan_rows L year d _ O [] w w1 _ Hscan) as Hkeep.
  split; [|done].
  unfold convert_pokercraft_to_bink.
  unfold mbind at 1, M_bind, read_file. rewrite Hf.
  destruct (find_rows L text) as [|r rows] eqn:Hrows; [done|].
  by rewrite (bind_abort _ _ _ _ _ Hscan).
Qed.

Lemma convert_agree L L' html_file output_csv year year' d location bankroll w :
  (∀ text, Forall2 same_but_dates (find_rows L text) (find_rows L' text)) ->
  agree (Forall2 same_but_date)
    (convert_pokercraft_to_bink L html_file output_csv year d location bankroll w).2
    (convert_pokercraft_to_bink L' html_file output_csv year' d location bankroll w).2.
Proof.
  intros Hrows.
  destruct (files w !! html_file) as [text|] eqn:Hf.
  2:{ unfold convert_pokercraft_to_bink, mbind, M_bind, read_file. by rewrite Hf. }
  specialize (Hrows text).
  pose proof (scan_rows_agree L L' year year' d _ _ Hrows O O [] [] w w (Forall2_nil_2 _ _ _)) as H.
  destruct (scan_rows L year d O (find_rows L text) [] w) as [w1 [l|e]] eqn:E,
           (scan_rows L' year' d O (find_rows L' text) [] w) as [w1' [l'|e']] eqn:E';
    simpl in H; try done.
  - destruct H as [|s s' l l' Hs Hl].
    + destruct (convert_nothing L html_file output_csv year d location bankroll w text Hf)
        as (? & -> & _); [eauto|].
      destruct (convert_nothing L' html_file output_csv year' d location bankroll w text Hf)
        as (? & -> & _); [eauto|]. simpl. constructor.
    + destruct (convert_writes L html_file output_csv year d location bankroll _ _ _ _ _ Hf E)
        as (? & ->).
      destruct (convert_writes L' html_file output_csv year' d location bankroll _ _ _ _ _ Hf E')
        as (? & ->). simpl. by constructor.
  - subst e'.
    destruct (convert_aborts L html_file output_csv year d location bankroll _ _ _ _ Hf E)
      as [-> _].
    by destruct (convert_aborts L' html_file output_csv year' d location bankroll _ _ _ _ Hf E')
      as [-> _].
Qed.

(** C5.  [parse_date] never raises, whatever the text, the year and the
    calendar library: when its parsing fails it prints the input and the
    failure and returns the empty string.  So a session-start cell never
    stops the scan of its row, and two documents that differ in their date
    texts only (even read with two calendar libraries and years) make the
    converter raise the same exception, or return records that differ in
    their [Date] fields only. *)
Theorem parse_date_never_raises L date_str year w :
  parse_date L date_str year w =
    match parse_date_body L date_str year with
    | Ok d => (w, Ok d)
    | Raise e =>
        (World (files w)
           (stdout w ++ [[Text "Error parsing date '"; Fmt (VStr date_str);
                          Text "': "; FmtExn e]])%list,
         Ok "")
    end
  ∧ (∀ s c, column_of c = Some SessionStart ->
       raised (scan_cell L year s c w).2 = false)
  ∧ (∀ L' year' html_file output_csv d location bankroll,
       (∀ text, Forall2 same_but_dates (find_rows L text) (find_rows L' text)) ->
       agree (Forall2 same_but_date)
         (convert_pokercraft_to_bink L html_file output_csv year d location bankroll w).2
         (convert_pokercraft_to_bink L' html_file output_csv year' d location bankroll w).2).
Proof.
  split_and!.
  - apply parse_date_run.
  - intros s c Hc. rewrite scan_cell_by_column, Hc.
    destruct (tooltip c) as [t|]; [|done].
    destruct (parse_date_returns L (join " " (split_ws t)) year w) as (w1 & d & E).
    by rewrite (bind_step _ _ _ _ _ E).
  - intros L' year' html_file output_csv d location bankroll Hrows.
    by apply convert_agree.
Qed.

Lemma parse_date_never_raises_witness :
  parse_date (Sample.lib [Sample.full_row]) "yesterday" (Some 2024) Sample.disk
  = (World (files Sample.disk)
       [[Text "Error parsing date '"; Fmt (VStr "yesterday"); Text "': ";
         FmtExn (Exn ValueError "time data does not match format '%b %d %Y': yesterday 2024")]],
     Ok "")
  ∧ raised (scan_cell (Sample.lib [Sample.full_row]) (Some 2024) ∅
              (Cell ["mat-cell"; "mat-column-SessionStart"] "yesterday" (Some "yesterday"))
              Sample.disk).2 = false
  ∧ agree (Forall2 same_but_date)
      (Sample.run [Sample.full_row] (Some 2024) None).2
      (Sample.run [Cell ["mat-cell"; "mat-column-SessionStart"] "?" (Some "no date")
                     :: tail Sample.full_row] None None).2.
Proof.
  destruct (parse_date_never_raises (Sample.lib [Sample.full_row]) "yesterday" (Some 2024) Sample.disk)
    as (Hrun & Hcell & Hdoc).
  split_and!.
  - etrans; [exact Hrun|]. by_vm.
  - apply Hcell. reflexivity.
  - apply (Hdoc (Sample.lib [Cell ["mat-cell"; "mat-column-SessionStart"] "?" (Some "no date")
                               :: tail Sample.full_row]) None).
    intros text. simpl. apply Forall2_cons_2; [|apply Forall2_nil_2].
    unfold same_but_dates, Sample.full_row. simpl.
    repeat (apply Forall2_cons_2;
            [split_and!; [reflexivity | (by left) || (by right) | by split; eauto]|]).
    apply Forall2_nil_2.
Defined.

(** ** C6: what is returned and what is written *)

Lemma scan_cell_keeps L year s c w w' s' key :
  scan_cell L year s c w = (w', Ok s') -> is_Some (s !! key) -> is_Some (s' !! key).
Proof.
  rewrite scan_cell_by_column. intros H Hk.
  destruct (column_of c) as [[]|]; [destruct (tooltip c)|..];
    try (apply bind_ok in H as (? & ? & _ & H));
    injection H as _ <-; rewrite ?lookup_insert_is_Some'; tauto.
Qed.

Lemma scan_cell_fills L year s c w w' s' k :
  column_of c = Some k -> (k = SessionStart -> is_Some (tooltip c)) ->
  scan_cell L year s c w = (w', Ok s') -> is_Some (s' !! field_of k).
Proof.
  rewrite scan_cell_by_column. intros -> Htip H.
  destruct k; [destruct (Htip eq_refl) as [t Ht]; rewrite Ht in H|..];
    try (apply bind_ok in H as (? & ? & _ & H));
    injection H as _ <-; rewrite ?lookup_insert_is_Some'; simpl; auto.
Qed.

Lemma scan_cells_keeps L year r : ∀ s w w' s' key,
  scan_cells L year s r w = (w', Ok s') -> is_Some (s !! key) -> is_Some (s' !! key).
Proof.
  induction r as [|c r IH]; intros s w w' s' key; simpl.
  - by intros [= _ <-].
  - intros H Hk. apply bind_ok in H as (w1 & s1 & Hc & H).
    eapply IH; [done|]. by eapply scan_cell_keeps.
Qed.

Lemma scan_cells_fills L year r c k : ∀ s w w' s',
  c ∈ r -> column_of c = Some k -> (k = SessionStart -> is_Some (tooltip c)) ->
  scan_cells L year s r w = (w', Ok s') -> is_Some (s' !! field_of k).
Proof.
  induction r as [|c0 r IH]; intros s w w' s' Hin Hcol Htip; simpl.
  - by apply elem_of_nil in Hin.
  - intros H. apply bind_ok in H as (w1 & s1 & Hc & H).
    apply elem_of_cons in Hin as [<-|Hin].
    + eapply scan_cells_keeps; [done|]. by eapply scan_cell_fills.
    + by eapply IH.
Qed.

Lemma fully_populated_fields L year r w w' s :
  fully_populated r -> scan_cells L year ∅ r w = (w', Ok s) ->
  ∀ k, is_Some (s !! field_of k).
Proof.
  intros [(c & t & Hin & Hcol & Htip) Hrest] H k.
  destruct (decide (k = SessionStart)) as [->|Hk].
  - eapply scan_cells_fills; eauto.
  - destruct (Hrest k Hk) as (c' & Hin' & Hcol').
    eapply scan_cells_fills; eauto. done.
Qed.

(** C6.  If the document has no marked row, or its rows yield no Session
    Record, the converter returns the empty list and leaves every file as it
    was (the output file is not created); if its only marked row is fully
    populated and well formed, the converter returns exactly one record, with
    all its fields, and the output file holds the header line and one data
    line. *)
Theorem empty_result_or_one_record L html_file output_csv year d location bankroll w text :
  files w !! html_file = Some text ->
  ((find_rows L text = [] ∨
    ∃ w1, scan_rows L year d O (find_rows L text) [] w = (w1, Ok [])) ->
   ∃ w', convert_pokercraft_to_bink L html_file output_csv year d location bankroll w
         = (w', Ok []) ∧ files w' = files w)
  ∧ (∀ r w1 l,
       find_rows L text = [r] -> fully_populated r ->
       scan_rows L year d O [r] [] w = (w1, Ok l) ->
       ∃ s out,
         l = [s] ∧ (∀ k, is_Some (s !! field_of k)) ∧
         convert_pokercraft_to_bink L html_file output_csv year d location bankroll w
         = (World (<[output_csv := csv_line L (VStr <$> fieldnames)
                                   +:+ csv_line L (csv_record location bankroll s)]> (files w))
                  out,
            Ok [s])).
Proof.
  intros Hf. split; [by apply convert_nothing|].
  intros r w1 l Hrows Hfull Hscan.
  pose proof Hscan as H. simpl in H.
  apply bind_ok in H as (w2 & s0 & Hcells & H).
  apply bind_ok in H as (w3 & acc & Hclose & H). injection H as _ <-.
  pose proof (fully_populated_fields L year r w w2 s0 Hfull Hcells) as Hfields.
  apply close_row_ok in Hclose as [(-> & _ & _)|(_ & b & c & _ & _ & ->)].
  { destruct (Hfields Hands) as [? Hx]. by rewrite lookup_empty in Hx. }
  rewrite <- Hrows in Hscan.
  destruct (convert_writes L html_file output_csv year d location bankroll _ _ _ _ _ Hf Hscan)
    as [out Hconv].
  exists (closed s0 b c), out. split_and!; [done| |].
  - intros k. unfold closed. rewrite !lookup_insert_is_Some'. auto.
  - rewrite Hconv. simpl. by rewrite append_empty_r.
Qed.

Lemma full_row_fully_populated : fully_populated Sample.full_row.
Proof.
  split.
  - exists Sample.date_cell. eexists. split_and!; [by left|reflexivity|reflexivity].
  - intros k Hk. unfold Sample.full_row.
    destruct k; [done|..];
      [ exists Sample.stakes_cell | exists Sample.table_cell | exists Sample.hands_cell
      | exists Sample.duration_cell | exists Sample.winloss_cell ];
      (split; [set_solver|reflexivity]).
Qed.

Lemma empty_result_or_one_record_witness :
  (∃ w', Sample.run [] (Some 2024) None = (w', Ok []) ∧ files w' = files Sample.disk) ∧
  (∃ w', Sample.run [[]; [Cell ["mat-cell"] "n/a" None]] (Some 2024) None = (w', Ok [])
         ∧ files w' = files Sample.disk) ∧
  (∃ s out,
     [Sample.full_session] = [s] ∧ (∀ k, is_Some (s !! field_of k)) ∧
     Sample.run [Sample.full_row] (Some 2024) None
     = (World (<["bink_import.csv" :=
                   Sample.csv_line (VStr <$> fieldnames)
                   +:+ Sample.csv_line (csv_record "Natural8" "Natural8" s)]>
                 (files Sample.disk)) out,
        Ok [s])).
Proof.
  split_and!.
  - apply (empty_result_or_one_record (Sample.lib []) "pokercraft_sessions.html"
             "bink_import.csv" (Some 2024) None "Natural8" "Natural8" Sample.disk
             "<table>...</table>"); [reflexivity|].
    left. reflexivity.
  - apply (empty_result_or_one_record (Sample.lib [[]; [Cell ["mat-cell"] "n/a" None]])
             "pokercraft_sessions.html" "bink_import.csv" (Some 2024) None
             "Natural8" "Natural8" Sample.disk "<table>...</table>"); [reflexivity|].
    right. eexists. reflexivity.
  - destruct (empty_result_or_one_record (Sample.lib [Sample.full_row])
                "pokercraft_sessions.html" "bink_import.csv" (Some 2024) None
                "Natural8" "Natural8" Sample.disk "<table>...</table>" eq_refl)
      as [_ Hone].
    apply (Hone Sample.full_row
             (scan_rows (Sample.lib [Sample.full_row]) (Some 2024) None O
                [Sample.full_row] [] Sample.disk).1).
    + reflexivity.
    + apply full_row_fully_populated.
    + by_vm.
Defined.

(** ** C7: malformed stakes and durations abort the run *)

Lemma split_without sep s :
  contains (String sep "") s = false -> split sep s = [s].
Proof.
  induction s as [|c s IH]; [done|].
  cbn [contains starts_with split]. rewrite orb_false_iff, andb_true_r.
  intros [Hc Hs]. rewrite Ascii.eqb_sym, Hc. by rewrite (IH Hs).
Qed.

Lemma remove_keeps_absent sep c s :
  contains (String sep "") s = false -> contains (String sep "") (remove c s) = false.
Proof.
  induction s as [|a s IH]; [done|].
  cbn [contains starts_with remove]. rewrite orb_false_iff, andb_true_r.
  intros [Ha Hs]. destruct (Ascii.eqb a c); [auto|].
  cbn [contains starts_with]. rewrite andb_true_r, Ha. auto.
Qed.

Lemma py_int_raises_ValueError p e : py_int p = Raise e -> exn_cls e = ValueError.
Proof.
  unfold py_int. destruct (sign_of _) as [neg body].
  destruct (digits body); [done|]. by intros [= <-].
Qed.

Lemma raised_true {A} (r : result A) : raised r = true -> ∃ e, r = Raise e.
Proof. destruct r; [done|eauto]. Qed.

(** A stakes text without ["/"] has one part only. *)
Lemma estimate_without_slash stakes :
  contains "/" stakes = false ->
  estimate_buyin_from_stakes stakes = Raise (Exn IndexError "list index out of range").
Proof.
  intros H. unfold estimate_buyin_from_stakes.
  by rewrite (split_without "/" _ (remove_keeps_absent "/" "$" _ H)).
Qed.

(** A part that is read and is not a number stops [parse_duration]. *)
Lemma parse_duration_bad_part d parts i p :
  split ":" (strip d) = parts -> (2 <= length parts)%nat ->
  (i < 3)%nat -> parts !! i = Some p -> raised (py_int p) = true ->
  ∃ e, parse_duration d = Raise e ∧ exn_cls e = ValueError.
Proof.
  intros Hparts Hlen Hi Hp Hbad. unfold parse_duration. rewrite Hparts.
  destruct parts as [|p0 [|p1 rest]]; simpl in Hlen; [lia|lia|]. simpl.
  destruct (py_int p0) as [h|e0] eqn:E0; simpl.
  2:{ exists e0. split; [done|]. by eapply py_int_raises_ValueError. }
  destruct (py_int p1) as [m|e1] eqn:E1; simpl.
  2:{ exists e1. split; [done|]. by eapply py_int_raises_ValueError. }
  destruct i as [|[|[|i]]]; [| | |lia]; simpl in Hp.
  - injection Hp as <-. by rewrite E0 in Hbad.
  - injection Hp as <-. by rewrite E1 in Hbad.
  - destruct rest as [|p2 rest]; [done|]. injection Hp as ->. simpl.
    apply raised_true in Hbad as [e2 E2]. rewrite E2. simpl.
    exists e2. split; [done|]. by eapply py_int_raises_ValueError.
Qed.

Lemma scan_cells_app L year r1 r2 : ∀ s w w1 s1,
  scan_cells L year s r1 w = (w1, Ok s1) ->
  scan_cells L year s (r1 ++ r2) w = scan_cells L year s1 r2 w1.
Proof.
  induction r1 as [|c r1 IH]; intros s w w1 s1; simpl.
  - by intros [= <- <-].
  - intros H. apply bind_ok in H as (w2 & s2 & Hc & H).
    rewrite (bind_step _ _ _ _ _ Hc). by apply IH.
Qed.

Lemma scan_rows_app L year d rows1 rows2 : ∀ idx acc w w1 acc1,
  scan_rows L year d idx rows1 acc w = (w1, Ok acc1) ->
  scan_rows L year d idx (rows1 ++ rows2) acc w
  = scan_rows L year d (idx + length rows1) rows2 acc1 w1.
Proof.
  induction rows1 as [|r rows1 IH]; intros idx acc w w1 acc1; simpl.
  - intros [= <- <-]. by rewrite Nat.add_0_r.
  - intros H. apply bind_ok in H as (w2 & s & Hc & H).
    apply bind_ok in H as (w3 & acc2 & Hr & H).
    rewrite (bind_step _ _ _ _ _ Hc), (bind_step _ _ _ _ _ Hr).
    rewrite (IH _ _ _ _ _ H). f_equal. lia.
Qed.

Lemma row_raise_aborts_scan L year d r rows idx acc w w' e :
  (scan_cells L year ∅ r ≫= fun s => close_row d idx s acc) w = (w', Raise e) ->
  scan_rows L year d idx (r :: rows) acc w = (w', Raise e).
Proof.
  intros H. simpl. apply bind_raise in H as [H|(w1 & s & Hc & H)].
  - by rewrite (bind_abort _ _ _ _ _ H).
  - by rewrite (bind_step _ _ _ _ _ Hc), (bind_abort _ _ _ _ _ H).
Qed.

(** C7, amended.  Nothing in the pipeline catches the exception of a
    malformed stakes or duration text, where the text is read.
    [estimate_buyin_from_stakes] raises on a text without ["/"] (so on the
    [""] standing for a missing Stakes field); [parse_duration] raises on a
    text of two parts or more one of whose first three parts is not a number
    (it reads no other part); a duration cell on which [parse_duration]
    raises stops the scan of its row; a bag whose buy-in estimate raises
    stops the end of its row when the default buy-in is absent or zero (the
    estimator is not called otherwise); and an exception raised by a row
    comes out of [convert_pokercraft_to_bink] unchanged, with no record
    returned and no file written, whatever the rows before and after. *)
Theorem malformed_stakes_or_duration_aborts
    L html_file output_csv year d location bankroll w html :
  (∀ stakes, contains "/" stakes = false ->
     estimate_buyin_from_stakes stakes = Raise (Exn IndexError "list index out of range"))
  ∧ (∀ s, s !! "Stakes" = None ->
       estimated_buyin s = Raise (Exn IndexError "list index out of range"))
  ∧ (∀ dur parts i p,
       split ":" (strip dur) = parts -> (2 <= length parts)%nat ->
       (i < 3)%nat -> parts !! i = Some p -> raised (py_int p) = true ->
       ∃ e, parse_duration dur = Raise e ∧ exn_cls e = ValueError)
  ∧ (∀ pre c post s0 w0 w1 s1 e,
       scan_cells L year s0 pre w0 = (w1, Ok s1) ->
       column_of c = Some Duration -> parse_duration (text c) = Raise e ->
       scan_cells L year s0 (pre ++ c :: post) w0 = (w1, Raise e))
  ∧ (∀ idx s acc w0 e,
       s ≠ ∅ -> from_option truthy false d = false -> estimated_buyin s = Raise e ->
       close_row d idx s acc w0 = (w0, Raise e))
  ∧ (∀ before r after w1 acc w2 e,
       files w !! html_file = Some html ->
       find_rows L html = (before ++ r :: after)%list ->
       scan_rows L year d O before [] w = (w1, Ok acc) ->
       (scan_cells L year ∅ r ≫= fun s => close_row d (length before) s acc) w1
         = (w2, Raise e) ->
       convert_pokercraft_to_bink L html_file output_csv year d location bankroll w
         = (w2, Raise e) ∧ files w2 = files w).
Proof.
  split_and!.
  - apply estimate_without_slash.
  - intros s Hs. unfold estimated_buyin, get. rewrite Hs. simpl.
    by apply estimate_without_slash.
  - apply parse_duration_bad_part.
  - intros pre c post s0 w0 w1 s1 e Hpre Hcol Hbad.
    rewrite (scan_cells_app _ _ _ _ _ _ _ _ Hpre). simpl.
    apply bind_abort. rewrite scan_cell_by_column, Hcol.
    apply bind_abort. unfold lift. by rewrite Hbad.
  - intros idx s acc w0 e Hs Hd Hest. unfold close_row.
    rewrite bool_decide_eq_false_2 by done.
    apply bind_abort. unfold lift, choose_buyin. fold (estimated_buyin s).
    rewrite Hest. destruct d as [b|]; [|done]. simpl in Hd. by rewrite Hd.
  - intros before r after w1 acc w2 e Hf Hrows Hbefore Hrow.
    apply (convert_aborts L html_file output_csv year d location bankroll w html); [done|].
    rewrite Hrows, (scan_rows_app _ _ _ _ _ _ _ _ _ _ Hbefore). simpl.
    by apply row_raise_aborts_scan.
Qed.

Lemma malformed_stakes_or_duration_aborts_witness :
  estimate_buyin_from_stakes "" = Raise (Exn IndexError "list index out of range")
  ∧ estimated_buyin {[ "Hands" := VStr "12" ]} = Raise (Exn IndexError "list index out of range")
  ∧ (∃ e, parse_duration "1h:30" = Raise e ∧ exn_cls e = ValueError)
  ∧ (scan_cells (Sample.lib Sample.mixed_rows) (Some 2024) ∅ Sample.bad_duration_row
       Sample.disk).2 = Raise Sample.bad_part
  ∧ (close_row None 7 {[ "Hands" := VStr "12" ]} [] Sample.disk).2
    = Raise (Exn IndexError "list index out of range")
  ∧ (Sample.run Sample.mixed_rows (Some 2024) None).2 = Raise Sample.bad_part
  ∧ files (Sample.run Sample.mixed_rows (Some 2024) None).1 = files Sample.disk.
Proof.
  set (L := Sample.lib Sample.mixed_rows).
  destruct (malformed_stakes_or_duration_aborts L "pokercraft_sessions.html"
              "bink_import.csv" (Some 2024) None "Natural8" "Natural8" Sample.disk
              "<table>...</table>")
    as (Hstakes & Hnone & Hdur & Hcell & Hrow & Hrun).
  split_and!.
  - apply Hstakes. reflexivity.
  - apply Hnone. reflexivity.
  - apply (Hdur "1h:30" ["1h"; "30"] O "1h"); [reflexivity|simpl; lia|lia|reflexivity|reflexivity].
  - rewrite (Hcell [Cell ["mat-cell"; "mat-column-Stakes"] "$1/$2" None]
               (Cell ["mat-cell"; "mat-column-Duration"] "1h:30" None) []
               ∅ Sample.disk Sample.disk {[ "Stakes" := VStr "1/2" ]} Sample.bad_part);
      reflexivity.
  - rewrite (Hrow 7%nat {[ "Hands" := VStr "12" ]} [] Sample.disk
               (Exn IndexError "list index out of range")); [reflexivity| | |].
    + intros H. apply (f_equal (fun m : session => m !! "Hands")) in H. discriminate H.
    + reflexivity.
    + reflexivity.
  - pose proof (Hrun [Sample.full_row] Sample.bad_duration_row [Sample.full_row]
                  (scan_rows L (Some 2024) None O [Sample.full_row] [] Sample.disk).1
                  [Sample.full_session]
                  (scan_rows L (Some 2024) None O [Sample.full_row] [] Sample.disk).1
                  Sample.bad_part eq_refl eq_refl) as H.
    destruct H as [H _]; [by_vm|by_vm|].
    unfold Sample.run. fold L. by rewrite H.
  - pose proof (Hrun [Sample.full_row] Sample.bad_duration_row [Sample.full_row]
                  (scan_rows L (Some 2024) None O [Sample.full_row] [] Sample.disk).1
                  [Sample.full_session]
                  (scan_rows L (Some 2024) None O [Sample.full_row] [] Sample.disk).1
                  Sample.bad_part eq_refl eq_refl) as H.
    destruct H as [H H']; [by_vm|by_vm|].
    unfold Sample.run. fold L. rewrite H. exact H'.
Defined.

(** C7 as stated fails.  With a fixed buy-in the estimator is not called: a
    row without a Stakes cell, whose stakes text [""] has no ["/"], is
    exported.  And [parse_duration] reads three parts at most:
    ["1:30:00:xx"], whose last part is not a number, is 1.5 hours, and its
    row is exported. *)
Lemma malformed_stakes_or_duration_can_pass :
  contains "/" "" = false
  ∧ Sample.hands_session !! "Stakes" = None
  ∧ (Sample.run [Sample.hands_row] (Some 2024) (Some (VInt 20))).2
    = Ok [Sample.hands_session]
  ∧ split ":" (strip "1:30:00:xx") !! 3%nat = Some "xx"
  ∧ raised (py_int "xx") = true
  ∧ parse_duration "1:30:00:xx" = Ok (VFloat (dyadic 3 (-1)))
  ∧ (Sample.run [Sample.long_duration_row] (Some 2024) (Some (VInt 20))).2
    = Ok [Sample.long_duration_session].
Proof. split_and!; by_vm. Qed.

(** * More of the script *)

(** ** The files after a run of the converter *)

(** The three ways a run of the converter ends. *)
Lemma convert_outcome L html_file output_csv year d location bankroll w w' r :
  convert_pokercraft_to_bink L html_file output_csv year d location bankroll w = (w', r) ->
  (∃ e, r = Raise e ∧ files w' = files w)
  ∨ (r = Ok [] ∧ files w' = files w)
  ∨ (∃ s l, r = Ok (s :: l) ∧
       files w' = <[output_csv := csv_text L ((VStr <$> fieldnames)
                                    :: (csv_record location bankroll <$> s :: l))]> (files w)).
Proof.
  intros H. destruct (files w !! html_file) as [html|] eqn:Hf.
  2:{ unfold convert_pokercraft_to_bink, mbind, M_bind, read_file in H. rewrite Hf in H.
      injection H as <- <-. left. eauto. }
  destruct (scan_rows L year d O (find_rows L html) [] w) as [w1 [[|s l]|e]] eqn:Hscan.
  - destruct (convert_nothing L html_file output_csv year d location bankroll w html Hf)
      as (w2 & Hc & Hk); [eauto|].
    rewrite Hc in H. injection H as <- <-. auto.
  - destruct (convert_writes L html_file output_csv year d location bankroll w html w1 s l Hf Hscan)
      as (out & Hc).
    rewrite Hc in H. injection H as <- <-. right. right. eauto.
  - destruct (convert_aborts L html_file output_csv year d location bankroll w html w1 e Hf Hscan)
      as (Hc & Hk).
    rewrite Hc in H. injection H as <- <-. left. eauto.
Qed.

Lemma convert_touches_only_output_helper
    L html_file output_csv year d location bankroll w w' r :
  convert_pokercraft_to_bink L html_file output_csv year d location bankroll w = (w', r) ->
  ∀ path, path ≠ output_csv -> files w' !! path = files w !! path.
Proof.
  intros H path Hp.
  apply convert_outcome in H as [(e & -> & Hk)|[(-> & Hk)|(s & l & -> & Hk)]];
    rewrite Hk; [done|done|]. by rewrite lookup_insert_ne.
Qed.

(** X2.  When the converter returns records, the output file holds the
    header line followed by one line per returned record, in the order of
    the list, whatever it held before. *)
Theorem convert_output_is_header_and_records
    L html_file output_csv year d location bankroll w w' s l :
  convert_pokercraft_to_bink L html_file output_csv year d location bankroll w
    = (w', Ok (s :: l)) ->
  files w' !! output_csv
  = Some (csv_line L (VStr <$> fieldnames)
          +:+ csv_text L (csv_record location bankroll <$> s :: l)).
Proof.
  intros H. apply convert_outcome in H as [(e & [=] & _)|[([=] & _)|(s' & l' & [= -> ->] & Hk)]].
  rewrite Hk, lookup_insert_eq. reflexivity.
Qed.

Lemma convert_output_is_header_and_records_witness :
  files (Sample.run [Sample.full_row; Sample.full_row] (Some 2024) None).1 !! "bink_import.csv"
  = Some (Sample.csv_line (VStr <$> fieldnames)
          +:+ csv_text (Sample.lib [Sample.full_row; Sample.full_row])
                (csv_record "Natural8" "Natural8" <$> [Sample.full_session; Sample.full_session])).
Proof.
  apply (convert_output_is_header_and_records
           (Sample.lib [Sample.full_row; Sample.full_row])
           "pokercraft_sessions.html" "bink_import.csv" (Some 2024) None
           "Natural8" "Natural8" Sample.disk).
  by_vm.
Defined.

(** ** Invariants of the records *)

Lemma result_bind_ok {A B} (r : result A) (f : A -> result B) v :
  (r ≫= f) = Ok v -> ∃ a, r = Ok a ∧ f a = Ok v.
Proof. destruct r as [a|e]; [eauto|discriminate]. Qed.

Lemma scan_cells_invariant (Q : session -> Prop) L year :
  (∀ s c w w' s', Q s -> scan_cell L year s c w = (w', Ok s') -> Q s') ->
  ∀ r s w w' s', Q s -> scan_cells L year s r w = (w', Ok s') -> Q s'.
Proof.
  intros Hstep. induction r as [|c r IH]; intros s w w' s' Hs; simpl.
  - by intros [= _ <-].
  - intros H. apply bind_ok in H as (w1 & s1 & Hc & H). eauto.
Qed.

(** What holds of the bag of every row, from the empty bag on, and carries
    over to the record made of it, holds of every record returned. *)
Lemma scan_rows_Forall_bag (Q P : session -> Prop) L year d :
  Q ∅ ->
  (∀ s c w w' s', Q s -> scan_cell L year s c w = (w', Ok s') -> Q s') ->
  (∀ s buyin cashout,
     Q s -> s ≠ ∅ -> choose_buyin d s = Ok buyin ->
     (py_add buyin (get s "Winloss" (VInt 0)) ≫= py_round2) = Ok cashout ->
     P (closed s buyin cashout)) ->
  ∀ rows idx acc w w' acc',
    scan_rows L year d idx rows acc w = (w', Ok acc') ->
    Forall P acc -> Forall P acc'.
Proof.
  intros H0 Hstep Hclose. induction rows as [|r rows IH]; intros idx acc w w' acc'; simpl.
  - by intros [= _ <-].
  - intros H Hacc.
    apply bind_ok in H as (w1 & s & Hcells & H).
    apply bind_ok in H as (w2 & acc1 & Hrow & H).
    eapply IH; [done|].
    pose proof (scan_cells_invariant Q L year Hstep r ∅ w w1 s H0 Hcells) as Hs.
    apply close_row_ok in Hrow as [(_ & -> & _)|(Hne & buyin & cashout & Hb & Hc & ->)]; [done|].
    apply Forall_app. split; [done|]. apply Forall_singleton. eauto.
Qed.

Lemma py_div_ints_is_float a b v : py_div (VInt a) (VInt b) = Ok v -> ∃ x, v = VFloat x.
Proof.
  unfold py_div. intros H. apply result_bind_ok in H as (x & _ & [= <-]). eauto.
Qed.

Lemma py_add_float_r a y v : py_add a (VFloat y) = Ok v -> ∃ x, v = VFloat x.
Proof.
  destruct a; simpl; [done| |].
  - intros H. apply result_bind_ok in H as (x & _ & [= <-]). eauto.
  - intros [= <-]. eauto.
Qed.

Lemma parse_duration_is_float d v : parse_duration d = Ok v -> ∃ x, v = VFloat x.
Proof.
  unfold parse_duration. intros H.
  apply result_bind_ok in H as (h & _ & H).
  apply result_bind_ok in H as (m & _ & H).
  apply result_bind_ok in H as (s & _ & H).
  apply result_bind_ok in H as (a & Ha & H). apply py_div_ints_is_float in Ha as [x ->].
  apply result_bind_ok in H as (hm & Hhm & H). apply py_add_float_r in Hhm as [y ->].
  apply result_bind_ok in H as (b & Hb & H). apply py_div_ints_is_float in Hb as [z ->].
  apply result_bind_ok in H as (t & Ht & H). apply py_add_float_r in Ht as [u ->].
  injection H as <-. eauto.
Qed.

Lemma parse_winloss_is_float t v : parse_winloss t = Ok v -> ∃ x, v = VFloat x.
Proof.
  unfold parse_winloss. destruct (py_float _) as [x|e]; [|done]. intros [= <-]. eauto.
Qed.

Lemma estimate_is_float stakes v :
  estimate_buyin_from_stakes stakes = Ok v -> ∃ x, v = VFloat x.
Proof.
  unfold estimate_buyin_from_stakes. intros H.
  apply result_bind_ok in H as (bb & _ & H).
  apply result_bind_ok in H as (p & Hp & H).
  simpl in Hp. injection Hp as <-. injection H as <-. eauto.
Qed.

Lemma field_ok_insert (s : session) key v :
  map_Forall (fun k x => field_ok k x = true) s -> field_ok key v = true ->
  map_Forall (fun k x => field_ok k x = true) (<[key := v]> s).
Proof. intros Hs Hv. by apply map_Forall_insert_2. Qed.

Lemma scan_cell_field_ok L year s c w w' s' :
  map_Forall (fun k x => field_ok k x = true) s ->
  scan_cell L year s c w = (w', Ok s') ->
  map_Forall (fun k x => field_ok k x = true) s'.
Proof.
  rewrite scan_cell_by_column. intros Hs H.
  destruct (column_of c) as [[]|]; [destruct (tooltip c)|..];
    try (apply bind_ok in H as (w1 & x & Hx & H));
    injection H as _ <-; try done; repeat apply field_ok_insert; try done.
  - injection Hx as _ Hx. by apply parse_duration_is_float in Hx as [y ->].
  - injection Hx as _ Hx. by apply parse_winloss_is_float in Hx as [y ->].
Qed.

Lemma winloss_of_bag (s : session) :
  map_Forall (fun k x => field_ok k x = true) s ->
  get s "Winloss" (VInt 0) = VInt 0 ∨ ∃ x, get s "Winloss" (VInt 0) = VFloat x.
Proof.
  intros Hs. unfold get. destruct (s !! "Winloss") as [v|] eqn:E; [|by left].
  right. apply Hs in E. destruct v; try done. eauto.
Qed.

Lemma closed_field_ok d s buyin cashout :
  map_Forall (fun k x => field_ok k x = true) s ->
  choose_buyin d s = Ok buyin ->
  (py_add buyin (get s "Winloss" (VInt 0)) ≫= py_round2) = Ok cashout ->
  map_Forall (fun k x => field_ok k x = true) (closed s buyin cashout).
Proof.
  intros Hs Hb Hc. apply result_bind_ok in Hc as (t & Ht & Hc).
  unfold closed. repeat apply field_ok_insert; [done| |].
  - destruct buyin; [|done|done].
    by destruct (winloss_of_bag s Hs) as [Hw|[x Hw]]; rewrite Hw in Ht.
  - destruct t; [done| |]; by injection Hc as <-.
Qed.

(** X3.  In every record the converter returns, the text fields ([Date],
    [Stakes], [Table], [Game Type], [Hands]) hold strings, [Duration] and
    [Winloss] hold floats, [Buyin] and [Cashout] hold numbers and are always
    there, and there is no other field. *)
Theorem returned_records_are_well_formed
    L html_file output_csv year d location bankroll w w' sessions :
  convert_pokercraft_to_bink L html_file output_csv year d location bankroll w
    = (w', Ok sessions) ->
  Forall (fun s => map_Forall (fun k x => field_ok k x = true) s
                   ∧ is_Some (s !! "Buyin") ∧ is_Some (s !! "Cashout")) sessions.
Proof.
  intros H. apply convert_returns in H as [->|(html & w1 & _ & H)]; [done|].
  eapply (scan_rows_Forall_bag (fun s => map_Forall (fun k x => field_ok k x = true) s));
    [ | | |done|done].
  - apply map_Forall_empty.
  - intros. by eapply scan_cell_field_ok.
  - intros s buyin cashout Hs _ Hb Hc. split_and!.
    + by eapply closed_field_ok.
    + unfold closed. rewrite !lookup_insert_is_Some'. auto.
    + unfold closed. rewrite !lookup_insert_is_Some'. auto.
Qed.

Lemma returned_records_are_well_formed_witness :
  Forall (fun s => map_Forall (fun k x => field_ok k x = true) s
                   ∧ is_Some (s !! "Buyin") ∧ is_Some (s !! "Cashout"))
         [Sample.full_session; Sample.full_session].
Proof.
  apply (returned_records_are_well_formed
           (Sample.lib [Sample.full_row; Sample.full_row])
           "pokercraft_sessions.html" "bink_import.csv" (Some 2024) None
           "Natural8" "Natural8" Sample.disk
           (Sample.run [Sample.full_row; Sample.full_row] (Some 2024) None).1).
  by_vm.
Defined.

Lemma game_type_of_table_insert (s : session) key v :
  key ≠ "Table" -> key ≠ "Game Type" ->
  game_type_of_table s -> game_type_of_table (<[key := v]> s).
Proof.
  intros H1 H2. unfold game_type_of_table. by rewrite !lookup_insert_ne.
Qed.

Lemma scan_cell_game_type L year s c w w' s' :
  game_type_of_table s -> scan_cell L year s c w = (w', Ok s') -> game_type_of_table s'.
Proof.
  rewrite scan_cell_by_column. intros Hs H.
  destruct (column_of c) as [[]|]; [destruct (tooltip c)|..];
    try (apply bind_ok in H as (w1 & x & Hx & H));
    injection H as _ <-; try done; try (by apply game_type_of_table_insert).
  unfold game_type_of_table.
  by rewrite lookup_insert_ne, lookup_insert_eq, lookup_insert_eq.
Qed.

Lemma parse_game_type_range t :
  parse_game_type t = "Texas Hold'em" ∨ parse_game_type t = "Omaha".
Proof. unfold parse_game_type. repeat case_match; auto. Qed.

(** X4.  In every record the converter returns the game type goes with the
    table name: it is set exactly when the table name is, to what
    [parse_game_type] makes of that name; so the game type written to the
    file (Texas Hold'em when unset) is always Texas Hold'em or Omaha. *)
Theorem game_type_follows_table
    L html_file output_csv year d location bankroll w w' sessions :
  convert_pokercraft_to_bink L html_file output_csv year d location bankroll w
    = (w', Ok sessions) ->
  Forall (fun s =>
            game_type_of_table s ∧
            (get s "Game Type" (VStr "Texas Hold'em") = VStr "Texas Hold'em"
             ∨ get s "Game Type" (VStr "Texas Hold'em") = VStr "Omaha")) sessions.
Proof.
  intros H. apply convert_returns in H as [->|(html & w1 & _ & H)]; [done|].
  eapply (scan_rows_Forall_bag game_type_of_table); [ | | |done|done].
  - done.
  - intros. by eapply scan_cell_game_type.
  - intros s buyin cashout Hs _ _ _.
    assert (game_type_of_table (closed s buyin cashout)) as Hg.
    { unfold closed. by repeat apply game_type_of_table_insert. }
    split; [done|]. unfold game_type_of_table, get in *.
    destruct (closed s buyin cashout !! "Table") as [[t| |]|]; try done.
    + rewrite Hg. simpl. destruct (parse_game_type_range t) as [-> | ->]; auto.
    + rewrite Hg. simpl. auto.
Qed.

Lemma game_type_follows_table_witness :
  Forall (fun s =>
            game_type_of_table s ∧
            (get s "Game Type" (VStr "Texas Hold'em") = VStr "Texas Hold'em"
             ∨ get s "Game Type" (VStr "Texas Hold'em") = VStr "Omaha"))
         [Sample.full_session].
Proof.
  apply (game_type_follows_table (Sample.lib [Sample.full_row])
           "pokercraft_sessions.html" "bink_import.csv" (Some 2024) None
           "Natural8" "Natural8" Sample.disk
           (Sample.run [Sample.full_row] (Some 2024) None).1).
  by_vm.
Defined.

(** ** The converter as a function of its arguments *)

(** The loop over the rows uses the libraries and the year through
    [parse_date] only. *)
Lemma scan_cell_ext L L' year year' :
  (∀ t w, parse_date L t year w = parse_date L' t year' w) ->
  ∀ s c w, scan_cell L year s c w = scan_cell L' year' s c w.
Proof.
  intros Hd s c w. rewrite !scan_cell_by_column.
  destruct (column_of c) as [[]|]; try done.
  destruct (tooltip c); [|done]. apply bind_ext_l, Hd.
Qed.

Lemma scan_cells_ext L L' year year' :
  (∀ t w, parse_date L t year w = parse_date L' t year' w) ->
  ∀ r s w, scan_cells L year s r w = scan_cells L' year' s r w.
Proof.
  intros Hd. induction r as [|c r IH]; intros s w; simpl; [done|].
  etrans; [apply bind_ext_l, (scan_cell_ext L L' year year' Hd)|].
  apply bind_ext. intros s1 w1. apply IH.
Qed.

Lemma scan_rows_ext L L' year year' d :
  (∀ t w, parse_date L t year w = parse_date L' t year' w) ->
  ∀ rows idx acc w,
    scan_rows L year d idx rows acc w = scan_rows L' year' d idx rows acc w.
Proof.
  intros Hd. induction rows as [|r rows IH]; intros idx acc w; simpl; [done|].
  etrans; [apply bind_ext_l, (scan_cells_ext L L' year year' Hd)|].
  apply bind_ext. intros s w1. apply bind_ext. intros acc1 w2. apply IH.
Qed.

(** X5.  Leaving the year out is the same as passing the current year: the
    two runs print, write and return the same. *)
Theorem year_defaults_to_current_year L html_file output_csv d location bankroll w :
  convert_pokercraft_to_bink L html_file output_csv None d location bankroll w
  = convert_pokercraft_to_bink L html_file output_csv (Some (now_year L)) d
      location bankroll w.
Proof.
  unfold convert_pokercraft_to_bink. apply bind_ext. intros html w0.
  destruct (find_rows L html) as [|r rows]; [done|].
  apply bind_ext_l, scan_rows_ext. reflexivity.
Qed.

Lemma scan_rows_bound L year d rows : ∀ idx acc w w' acc',
  scan_rows L year d idx rows acc w = (w', Ok acc') ->
  (length acc' <= length acc + length rows)%nat.
Proof.
  induction rows as [|r rows IH]; intros idx acc w w' acc'; simpl.
  - intros [= _ <-]. lia.
  - intros H.
    apply bind_ok in H as (w1 & s & _ & H).
    apply bind_ok in H as (w2 & acc1 & Hrow & H).
    apply IH in H.
    apply close_row_ok in Hrow as [(_ & -> & _)|(_ & b & c & _ & _ & ->)]; [lia|].
    rewrite length_app in H. simpl in H. lia.
Qed.

(** What a step of the loops returns does not depend on the world it runs
    in: the world only receives the printed lines. *)
Lemma bind_result {A B} (m : M A) (f : A -> M B) w w0 :
  (m w).2 = (m w0).2 ->
  (∀ a w1 w2, (f a w1).2 = (f a w2).2) ->
  ((m ≫= f) w).2 = ((m ≫= f) w0).2.
Proof.
  intros Hm Hf. unfold mbind, M_bind.
  destruct (m w) as [w1 [a|e]], (m w0) as [w2 [a'|e']]; simpl in Hm; simplify_eq; auto.
Qed.

Lemma scan_cell_result L year s c w w0 :
  (scan_cell L year s c w).2 = (scan_cell L year s c w0).2.
Proof.
  rewrite !scan_cell_by_column.
  destruct (column_of c) as [[]|]; [destruct (tooltip c)|..]; try done;
    (apply bind_result; [|done]); try done.
  rewrite !parse_date_run. by destruct (parse_date_body _ _ _).
Qed.

Lemma scan_cells_result L year r : ∀ s w w0,
  (scan_cells L year s r w).2 = (scan_cells L year s r w0).2.
Proof.
  induction r as [|c r IH]; intros s w w0; simpl; [done|].
  apply bind_result; [apply scan_cell_result|]. intros. apply IH.
Qed.

Lemma close_row_result d idx idx' s acc w w0 :
  (close_row d idx s acc w).2 = (fun l => acc ++ l)%list <$> (close_row d idx' s [] w0).2.
Proof.
  destruct (close_row d idx s acc w) as [w1 [l|e]] eqn:E,
           (close_row d idx' s [] w0) as [w1' [l'|e']] eqn:E'; simpl.
  - apply close_row_ok in E as [(Hem & -> & _)|(Hne & b & c & Hb & Hc & ->)];
    apply close_row_ok in E' as [(Hem' & -> & _)|(Hne' & b' & c' & Hb' & Hc' & ->)];
      try done.
    + by rewrite app_nil_r.
    + rewrite Hb' in Hb. injection Hb as <-. rewrite Hc' in Hc. by injection Hc as <-.
  - apply close_row_raise in E' as (_ & Hne' & Hr).
    apply close_row_ok in E as [(Hem & _ & _)|(_ & b & c & Hb & Hc & _)]; [done|].
    destruct Hr as [Hr|(b' & Hb' & Hr)]; congruence.
  - apply close_row_raise in E as (_ & Hne & Hr).
    apply close_row_ok in E' as [(Hem' & _ & _)|(_ & b' & c' & Hb' & Hc' & _)]; [done|].
    destruct Hr as [Hr|(b & Hb & Hr)]; congruence.
  - apply close_row_raise in E as (_ & _ & Hr).
    apply close_row_raise in E' as (_ & _ & Hr').
    destruct Hr as [Hr|(b & Hb & Hr)], Hr' as [Hr'|(b' & Hb' & Hr')]; congruence.
Qed.

Lemma scan_rows_result L year d rows : ∀ idx idx' acc w w0,
  (scan_rows L year d idx rows acc w).2
  = (fun l => acc ++ l)%list <$> (scan_rows L year d idx' rows [] w0).2.
Proof.
  induction rows as [|r rows IH]; intros idx idx' acc w w0; simpl.
  - by rewrite app_nil_r.
  - pose proof (scan_cells_result L year r ∅ w w0) as Hc.
    unfold mbind at 1 3, M_bind.
    destruct (scan_cells L year ∅ r w) as [w1 [s|e]],
             (scan_cells L year ∅ r w0) as [w1' [s'|e']]; simpl in Hc; simplify_eq; [|done].
    pose proof (close_row_result d idx idx' s' acc w1 w1') as Hr.
    unfold mbind, M_bind.
    destruct (close_row d idx s' acc w1) as [w2 [l|e]],
             (close_row d idx' s' [] w1') as [w2' [l'|e']]; simpl in Hr; simplify_eq; [|done].
    rewrite (IH (S idx) (S idx') (acc ++ l')%list w2 w2').
    rewrite (IH (S idx') (S idx') l' w2' w2').
    destruct (scan_rows L year d (S idx') rows [] w2').2 as [l|e]; simpl; [|done].
    by rewrite app_assoc.
Qed.

Lemma scan_rows_app_result L year d rows1 rows2 w :
  (scan_rows L year d O (rows1 ++ rows2) [] w).2
  = (l1 ← (scan_rows L year d O rows1 [] w).2;
     l2 ← (scan_rows L year d O rows2 [] w).2;
     Ok (l1 ++ l2)%list).
Proof.
  destruct (scan_rows L year d O rows1 [] w) as [w1 [l1|e]] eqn:E; simpl.
  - rewrite (scan_rows_app _ _ _ _ _ _ _ _ _ _ E).
    rewrite (scan_rows_result L year d rows2 _ O l1 w1 w).
    by destruct (scan_rows L year d O rows2 [] w).2.
  - clear -E. revert w E. generalize (@nil session) O.
    induction rows1 as [|r rows1 IH]; intros acc idx w; simpl; [done|].
    intros H. apply bind_raise in H as [H|(w2 & s & Hc & H)].
    { by rewrite (bind_abort _ _ _ _ _ H). }
    rewrite (bind_step _ _ _ _ _ Hc).
    apply bind_raise in H as [H|(w3 & acc1 & Hr & H)].
    { by rewrite (bind_abort _ _ _ _ _ H). }
    rewrite (bind_step _ _ _ _ _ Hr). by apply IH.
Qed.

(** What the converter returns, read off the loop. *)
Lemma convert_result L html_file output_csv year d location bankroll w :
  (convert_pokercraft_to_bink L html_file output_csv year d location bankroll w).2
  = match files w !! html_file with
    | Some html => (scan_rows L year d O (find_rows L html) [] w).2
    | None => Raise (Exn FileNotFoundError html_file)
    end.
Proof.
  destruct (files w !! html_file) as [html|] eqn:Hf.
  2:{ unfold convert_pokercraft_to_bink, mbind, M_bind, read_file. by rewrite Hf. }
  destruct (scan_rows L year d O (find_rows L html) [] w) as [w1 [[|s l]|e]] eqn:Hscan.
  - by destruct (convert_nothing L html_file output_csv year d location bankroll w html Hf)
      as (w2 & -> & _); [eauto|].
  - by destruct (convert_writes L html_file output_csv year d location bankroll w html w1 s l Hf Hscan)
      as (out & ->).
  - by destruct (convert_aborts L html_file output_csv year d location bankroll w html w1 e Hf Hscan)
      as (-> & _).
Qed.

(** X6.  The rows are converted one by one, each on its own: the result for
    a document made of two lists of rows is the records of the first
    followed by the records of the second, or the exception of the first
    list that raises one. *)
Theorem rows_convert_independently
    L rows1 rows2 html_file output_csv year d location bankroll w :
  (convert_pokercraft_to_bink (with_rows L (rows1 ++ rows2)) html_file output_csv
     year d location bankroll w).2
  = (l1 ← (convert_pokercraft_to_bink (with_rows L rows1) html_file output_csv
             year d location bankroll w).2;
     l2 ← (convert_pokercraft_to_bink (with_rows L rows2) html_file output_csv
             year d location bankroll w).2;
     Ok (l1 ++ l2)%list).
Proof.
  rewrite !convert_result. destruct (files w !! html_file) as [html|]; [|done].
  assert (∀ rows rs, scan_rows (with_rows L rows) year d O rs [] w
                     = scan_rows L year d O rs [] w) as Hlib.
  { intros. by apply scan_rows_ext. }
  simpl. rewrite !Hlib. apply scan_rows_app_result.
Qed.

(** X7.  The converter returns at most one record per marked row. *)
Theorem at_most_one_record_per_row
    L html_file output_csv year d location bankroll w w' html sessions :
  files w !! html_file = Some html ->
  convert_pokercraft_to_bink L html_file output_csv year d location bankroll w
    = (w', Ok sessions) ->
  (length sessions <= length (find_rows L html))%nat.
Proof.
  intros Hf H. apply convert_returns in H as [->|(html' & w1 & Hf' & H)]; [simpl; lia|].
  rewrite Hf in Hf'. injection Hf' as <-.
  apply scan_rows_bound in H. simpl in H. lia.
Qed.

Lemma at_most_one_record_per_row_witness :
  (length [Sample.hands_session] <= length [[]; Sample.hands_row; []])%nat.
Proof.
  apply (at_most_one_record_per_row (Sample.lib [[]; Sample.hands_row; []])
           "pokercraft_sessions.html" "bink_import.csv" (Some 2024) (Some (VInt 20))
           "Natural8" "Natural8" Sample.disk
           (Sample.run [[]; Sample.hands_row; []] (Some 2024) (Some (VInt 20))).1
           "<table>...</table>"); [reflexivity|by_vm].
Defined.

(** * On any standard output *)

(** ** The lines of the scan *)

(** The lines printed while the rows are scanned hold no character beyond
    ASCII: the scan does the same on every standard output. *)
Lemma parse_date_console {K : console} L date_str year w :
  @parse_date K L date_str year w = @parse_date utf8 L date_str year w.
Proof. reflexivity. Qed.

Lemma scan_cell_console {K : console} L year s c w :
  @scan_cell K L year s c w = @scan_cell utf8 L year s c w.
Proof. reflexivity. Qed.

Lemma scan_cells_console {K : console} L year r : ∀ s w,
  @scan_cells K L year s r w = @scan_cells utf8 L year s r w.
Proof.
  induction r as [|c r IH]; intros s w; [done|]. simpl.
  unfold mbind, M_bind. rewrite scan_cell_console.
  destruct (@scan_cell utf8 L year s c w) as [w1 [s1|e]]; [apply IH|done].
Qed.

Lemma close_row_console {K : console} d idx s acc w :
  @close_row K d idx s acc w = @close_row utf8 d idx s acc w.
Proof. reflexivity. Qed.

Lemma scan_rows_console {K : console} L year d rows : ∀ idx acc w,
  @scan_rows K L year d idx rows acc w = @scan_rows utf8 L year d idx rows acc w.
Proof.
  induction rows as [|r rows IH]; intros idx acc w; [done|]. simpl.
  unfold mbind, M_bind. rewrite scan_cells_console.
  destruct (@scan_cells utf8 L year ∅ r w) as [w1 [s1|e]]; [|done].
  rewrite close_row_console.
  destruct (@close_row utf8 d idx s1 acc w1) as [w2 [acc2|e]]; [apply IH|done].
Qed.

Lemma printable_complete {K : console} n output_csv :
  printable (complete n output_csv) = forallb encodes check_mark.
Proof. unfold printable, complete. simpl. by rewrite !andb_true_r. Qed.

(** The ways a run of the converter ends, on any standard output: before
    the output file is opened, with an exception or the empty list; or after
    it is written, with the records if the last line can be printed and
    with the [UnicodeEncodeError] of that line if not. *)
Lemma convert_ends {K : console} L html_file output_csv year d location bankroll w w' r :
  convert_pokercraft_to_bink L html_file output_csv year d location bankroll w = (w', r) ->
  (∃ e, r = Raise e ∧ files w' = files w)
  ∨ (r = Ok [] ∧ files w' = files w)
  ∨ (∃ s l,
       files w' = <[output_csv := csv_text L ((VStr <$> fieldnames)
                                    :: (csv_record location bankroll <$> s :: l))]> (files w)
       ∧ (∃ w1 html, files w !! html_file = Some html
                     ∧ scan_rows L year d O (find_rows L html) [] w = (w1, Ok (s :: l)))
       ∧ r = if forallb encodes check_mark then Ok (s :: l)
             else Raise (Exn UnicodeEncodeError
                           (encode_error (complete (length (s :: l)) output_csv)))).
Proof.
  intros H. unfold convert_pokercraft_to_bink in H.
  unfold mbind at 1, M_bind, read_file in H.
  destruct (files w !! html_file) as [html|] eqn:Hf.
  2:{ injection H as <- <-. left. eauto. }
  destruct (find_rows L html) as [|r0 rows] eqn:Hrows.
  { simpl in H. injection H as <- <-. auto. }
  destruct (scan_rows L year d O (r0 :: rows) [] w) as [w1 [[|s l]|e]] eqn:Hscan.
  - pose proof Hscan as Hk. rewrite scan_rows_console in Hk.
    apply keeps_files_scan_rows in Hk.
    rewrite (bind_step _ _ _ _ _ Hscan) in H. simpl in H. injection H as <- <-. auto.
  - pose proof Hscan as Hk. rewrite scan_rows_console in Hk.
    apply keeps_files_scan_rows in Hk.
    rewrite (bind_step _ _ _ _ _ Hscan) in H.
    erewrite (bind_step (open_w _)) in H by reflexivity.
    erewrite (bind_step (write _ _)) in H by reflexivity.
    erewrite (bind_step (write_records _ _ _)) in H
      by (apply write_records_run; simpl; apply lookup_insert_eq).
    unfold mbind, M_bind, print in H. rewrite printable_complete in H.
    right. right. exists s, l.
    destruct (forallb encodes check_mark); simpl in H; injection H as <- <-;
      (split_and!; [|exists w1, html; by rewrite Hrows|done]); simpl;
      by rewrite lookup_insert_eq, !insert_insert_eq, Hk.
  - pose proof Hscan as Hk. rewrite scan_rows_console in Hk.
    apply keeps_files_scan_rows in Hk.
    rewrite (bind_abort _ _ _ _ _ Hscan) in H. injection H as <- <-. left. eauto.
Qed.

(** What the converter returns, read off the loop and the last line. *)
Lemma convert_result_on {K : console} L html_file output_csv year d location bankroll w :
  (convert_pokercraft_to_bink L html_file output_csv year d location bankroll w).2
  = match files w !! html_file with
    | Some html =>
        match (scan_rows L year d O (find_rows L html) [] w).2 with
        | Ok (s :: l) =>
            if forallb encodes check_mark then Ok (s :: l)
            else Raise (Exn UnicodeEncodeError
                          (encode_error (complete (length (s :: l)) output_csv)))
        | r => r
        end
    | None => Raise (Exn FileNotFoundError html_file)
    end.
Proof.
  unfold convert_pokercraft_to_bink. unfold mbind at 1, M_bind, read_file.
  destruct (files w !! html_file) as [html|] eqn:Hf; [|done].
  destruct (find_rows L html) as [|r0 rows] eqn:Hrows; [done|].
  destruct (scan_rows L year d O (r0 :: rows) [] w) as [w1 [[|s l]|e]] eqn:Hscan.
  - by rewrite (bind_step _ _ _ _ _ Hscan).
  - rewrite (bind_step _ _ _ _ _ Hscan).
    erewrite (bind_step (open_w _)) by reflexivity.
    erewrite (bind_step (write _ _)) by reflexivity.
    erewrite (bind_step (write_records _ _ _))
      by (apply write_records_run; simpl; apply lookup_insert_eq).
    unfold mbind, M_bind, print. rewrite printable_complete.
    by destruct (forallb encodes check_mark).
  - by rewrite (bind_abort _ _ _ _ _ Hscan).
Qed.

Lemma convert_result_files_on {K : console}
    L html_file output_csv year d location bankroll w w0 :
  files w0 = files w ->
  (convert_pokercraft_to_bink L html_file output_csv year d location bankroll w0).2
  = (convert_pokercraft_to_bink L html_file output_csv year d location bankroll w).2.
Proof.
  intros Hf. rewrite !convert_result_on, Hf.
  destruct (files w !! html_file) as [html|]; [|done].
  rewrite (@scan_rows_console K L year d _ O [] w0), (@scan_rows_console K L year d _ O [] w).
  rewrite (scan_rows_result L year d _ O O [] w0 w).
  by destruct (scan_rows _ _ _ _ _ _ _).2 as [[|??]|?].
Qed.

(** How a run of the converter leaves the files, on any standard output. *)
Lemma convert_files_after {K : console}
    L html_file output_csv year d location bankroll w w' r :
  convert_pokercraft_to_bink L html_file output_csv year d location bankroll w = (w', r) ->
  (∀ path, path ≠ output_csv -> files w' !! path = files w !! path)
  ∧ (r = Ok [] -> files w' = files w)
  ∧ (∀ e, r = Raise e ->
       files w' = files w
       ∨ (forallb encodes check_mark = false
          ∧ ∃ s l,
              e = Exn UnicodeEncodeError (encode_error (complete (length (s :: l)) output_csv))
              ∧ files w' = <[output_csv := csv_text L ((VStr <$> fieldnames)
                                 :: (csv_record location bankroll <$> s :: l))]> (files w))).
Proof.
  intros H.
  apply convert_ends in H as [(e & -> & Hk)|[(-> & Hk)|(s & l & Hk & _ & ->)]].
  - split_and!; [by rewrite Hk|done|auto].
  - split_and!; [by rewrite Hk|done|done].
  - split_and!.
    + intros path Hp. by rewrite Hk, lookup_insert_ne.
    + by destruct (forallb encodes check_mark).
    + intros e. destruct (forallb encodes check_mark); [done|].
      intros [= <-]. right. split; [done|]. by exists s, l.
Qed.

(** X1.  The converter changes no file but the output file.  It changes none
    at all when it returns the empty list, and none when it raises, with one
    exception: on a standard output that lacks one of the three characters
    beyond ASCII of its last line, the [UnicodeEncodeError] of that line
    comes after the output file was written. *)
Theorem convert_touches_only_output {K : console}
    L html_file output_csv year d location bankroll w w' r :
  convert_pokercraft_to_bink L html_file output_csv year d location bankroll w = (w', r) ->
  (∀ path, path ≠ output_csv -> files w' !! path = files w !! path)
  ∧ (r = Ok [] -> files w' = files w)
  ∧ (∀ e, r = Raise e ->
       files w' = files w
       ∨ (forallb encodes check_mark = false
          ∧ ∃ s l,
              e = Exn UnicodeEncodeError (encode_error (complete (length (s :: l)) output_csv))
              ∧ files w' = <[output_csv := csv_text L ((VStr <$> fieldnames)
                                 :: (csv_record location bankroll <$> s :: l))]> (files w))).
Proof. apply convert_files_after. Qed.

Lemma convert_touches_only_output_witness :
  (∀ path, path ≠ "bink_import.csv" ->
     files (Sample.run_on Sample.latin1 [Sample.full_row] (Some 2024) None).1 !! path
     = files Sample.disk !! path)
  ∧ (files (Sample.run_on Sample.latin1 [Sample.full_row] (Some 2024) None).1
     = files Sample.disk
     ∨ (forallb (@encodes Sample.latin1) check_mark = false
        ∧ ∃ s l,
            Exn UnicodeEncodeError (@encode_error Sample.latin1 (complete 1 "bink_import.csv"))
            = Exn UnicodeEncodeError
                (@encode_error Sample.latin1 (complete (length (s :: l)) "bink_import.csv"))
            ∧ files (Sample.run_on Sample.latin1 [Sample.full_row] (Some 2024) None).1
              = <["bink_import.csv" :=
                    csv_text (Sample.lib [Sample.full_row])
                      ((VStr <$> fieldnames)
                       :: (csv_record "Natural8" "Natural8" <$> s :: l))]>
                  (files Sample.disk))).
Proof.
  destruct (@convert_touches_only_output Sample.latin1 (Sample.lib [Sample.full_row])
              "pokercraft_sessions.html" "bink_import.csv" (Some 2024) None
              "Natural8" "Natural8" Sample.disk
              (Sample.run_on Sample.latin1 [Sample.full_row] (Some 2024) None).1
              (Raise (Exn UnicodeEncodeError
                        (@encode_error Sample.latin1 (complete 1 "bink_import.csv")))))
    as (Hother & _ & Hraise); [by_vm|].
  split; [exact Hother|exact (Hraise _ eq_refl)].
Defined.

(** X20.  On a standard output that lacks one of the three characters
    beyond ASCII of the last line, a run that yields records writes the
    output file in full, header and records, prints every line but the last
    and then raises the [UnicodeEncodeError] of that line instead of
    returning the records. *)
Theorem convert_raises_after_writing {K : console}
    L html_file output_csv year d location bankroll w html w1 s l :
  files w !! html_file = Some html ->
  scan_rows L year d O (find_rows L html) [] w = (w1, Ok (s :: l)) ->
  forallb encodes check_mark = false ->
  convert_pokercraft_to_bink L html_file output_csv year d location bankroll w
  = (World (<[output_csv := csv_text L ((VStr <$> fieldnames)
                               :: (csv_record location bankroll <$> s :: l))]> (files w))
           (stdout w1),
     Raise (Exn UnicodeEncodeError (encode_error (complete (length (s :: l)) output_csv)))).
Proof.
  intros Hf Hscan Hlack. unfold convert_pokercraft_to_bink.
  unfold mbind at 1, M_bind, read_file. rewrite Hf.
  destruct (find_rows L html) as [|r0 rows] eqn:Hrows.
  { simpl in Hscan. by injection Hscan. }
  pose proof Hscan as Hk. rewrite scan_rows_console in Hk.
  apply keeps_files_scan_rows in Hk.
  rewrite (bind_step _ _ _ _ _ Hscan).
  erewrite (bind_step (open_w _)) by reflexivity.
  erewrite (bind_step (write _ _)) by reflexivity.
  erewrite (bind_step (write_records _ _ _))
    by (apply write_records_run; simpl; apply lookup_insert_eq).
  unfold mbind, M_bind, print. rewrite printable_complete, Hlack. simpl.
  by rewrite lookup_insert_eq, !insert_insert_eq, Hk.
Qed.

Lemma convert_raises_after_writing_witness :
  @convert_pokercraft_to_bink Sample.latin1 (Sample.lib [Sample.full_row])
    "pokercraft_sessions.html" "bink_import.csv" (Some 2024) None
    "Natural8" "Natural8" Sample.disk
  = (World (<["bink_import.csv" :=
              csv_text (Sample.lib [Sample.full_row])
                ((VStr <$> fieldnames)
                 :: (csv_record "Natural8" "Natural8" <$> [Sample.full_session]))]>
              (files Sample.disk))
           (stdout (scan_rows (Sample.lib [Sample.full_row]) (Some 2024) None O
                      [Sample.full_row] [] Sample.disk).1),
     Raise (Exn UnicodeEncodeError
              (@encode_error Sample.latin1 (complete 1 "bink_import.csv")))).
Proof.
  apply (@convert_raises_after_writing Sample.latin1 (Sample.lib [Sample.full_row])
           "pokercraft_sessions.html" "bink_import.csv" (Some 2024) None
           "Natural8" "Natural8" Sample.disk "<table>...</table>"
           (scan_rows (Sample.lib [Sample.full_row]) (Some 2024) None O
              [Sample.full_row] [] Sample.disk).1
           Sample.full_session []).
  - reflexivity.
  - by_vm.
  - reflexivity.
Defined.

(** ** The driver *)

Lemma print_all_run {K : console} ls :
  forallb printable ls = true ->
  ∀ w, print_all ls w = (World (files w) (stdout w ++ ls)%list, Ok tt).
Proof.
  induction ls as [|l ls IH]; intros Hp w; simpl.
  - rewrite app_nil_r. by destruct w.
  - simpl in Hp. apply andb_true_iff in Hp as [Hl Hls].
    unfold mbind, M_bind, print at 1. rewrite Hl, (IH Hls). simpl. by rewrite <- app_assoc.
Qed.

(** What the converter returns depends on the files only, not on what has
    been printed before. *)
Lemma convert_result_files L html_file output_csv year d location bankroll w w0 :
  files w0 = files w ->
  (convert_pokercraft_to_bink L html_file output_csv year d location bankroll w0).2
  = (convert_pokercraft_to_bink L html_file output_csv year d location bankroll w).2.
Proof.
  intros Hf. rewrite !convert_result, Hf.
  destruct (files w !! html_file) as [html|]; [|done].
  rewrite (scan_rows_result L year d _ O O [] w0 w).
  by destruct (scan_rows L year d O (find_rows L html) [] w).2.
Qed.

(** X8.  When the converter raises, the driver ends with exit status 1 and
    leaves every file but the output file as it was; the output file too,
    unless the exception is the [UnicodeEncodeError] of the converter's last
    line, on a standard output that lacks one of its characters: that one
    comes after the file was written.  For a missing input file the last
    two lines printed are the file-not-found message and nothing goes to
    the error stream; for any other exception the last line printed is the
    error and the error stream gets its traceback. *)
Theorem driver_fails_with_status_1 {K : console} L B C w e :
  (convert_pokercraft_to_bink L (cfg_html_file C) (cfg_output_csv C) (cfg_year C)
     (cfg_default_buy_in C) (cfg_location C) (cfg_bankroll C) w).2 = Raise e ->
  let x := main L B C w in
  status x = 1
  ∧ (∀ path, path ≠ cfg_output_csv C -> files (final x) !! path = files w !! path)
  ∧ (files (final x) = files w
     ∨ (forallb encodes check_mark = false
        ∧ ∃ s l,
            e = Exn UnicodeEncodeError
                  (encode_error (complete (length (s :: l)) (cfg_output_csv C)))
            ∧ files (final x)
              = <[cfg_output_csv C :=
                    csv_text L ((VStr <$> fieldnames)
                      :: (csv_record (cfg_location C) (cfg_bankroll C) <$> s :: l))]>
                  (files w)))
  ∧ ∃ before,
      if decide (exn_cls e = FileNotFoundError) then
        tracebacks x = [] ∧
        stdout (final x)
        = (before ++
           [ [Text "Error: Could not find file '"; Fmt (VStr (cfg_html_file C)); Text "'"];
             [Text "Please save your Pokercraft HTML to this file and try again."] ])%list
      else
        tracebacks x = [e] ∧
        stdout (final x) = (before ++ [[Text "Error: "; FmtExn e]])%list.
Proof.
  intros He x. subst x. unfold main. rewrite print_all_run by reflexivity. simpl.
  set (w0 := World (files w) (stdout w ++ banner C)%list).
  rewrite <- (convert_result_files_on L _ _ _ _ _ _ w w0 eq_refl) in He.
  destruct (convert_pokercraft_to_bink L (cfg_html_file C) (cfg_output_csv C) (cfg_year C)
              (cfg_default_buy_in C) (cfg_location C) (cfg_bankroll C) w0)
    as [w1 r] eqn:Hc.
  simpl in He. subst r.
  pose proof (convert_files_after _ _ _ _ _ _ _ _ _ _ Hc) as (Hother & _ & Hraise).
  specialize (Hraise e eq_refl).
  unfold main_body. rewrite (bind_abort _ _ _ _ _ Hc).
  destruct (decide (exn_cls e = FileNotFoundError)); simpl.
  - split_and!; [done|exact Hother|exact Hraise|].
    exists (stdout w1). split; [done|]. by rewrite <- app_assoc.
  - split_and!; [done|exact Hother|exact Hraise|]. by exists (stdout w1).
Qed.

Lemma driver_fails_with_status_1_witness :
  (status (SampleRun.main_on Sample.latin1 [Sample.full_row]) = 1
   ∧ tracebacks (SampleRun.main_on Sample.latin1 [Sample.full_row])
     = [Exn UnicodeEncodeError
          "'latin-1' codec can't encode characters in position 2-3: ordinal not in range(256)"]
   ∧ files (final (SampleRun.main_on Sample.latin1 [Sample.full_row])) !! "bink_import.csv"
     = files (Sample.run [Sample.full_row] (Some 2024) None).1 !! "bink_import.csv")
  ∧ (status (main (Sample.lib []) SampleRun.builtins CONFIG SampleRun.empty_disk) = 1
     ∧ tracebacks (main (Sample.lib []) SampleRun.builtins CONFIG SampleRun.empty_disk) = []).
Proof.
  split.
  - destruct (@driver_fails_with_status_1 Sample.latin1 (Sample.lib [Sample.full_row])
                SampleRun.builtins CONFIG Sample.disk
                (Exn UnicodeEncodeError
                   "'latin-1' codec can't encode characters in position 2-3: ordinal not in range(256)"))
      as (Hstatus & _ & _ & before & Htb & _); [by_vm|].
    split_and!; [exact Hstatus|exact Htb|by_vm].
  - destruct (@driver_fails_with_status_1 utf8 (Sample.lib []) SampleRun.builtins CONFIG
                SampleRun.empty_disk (Exn FileNotFoundError "pokercraft_sessions.html") eq_refl)
      as (Hstatus & _ & _ & before & Htb & _).
    split; [exact Hstatus|exact Htb].
Defined.

(** X9.  When the converter returns no record, the driver ends with exit
    status 0, prints nothing after the converter's own lines (no summary),
    writes nothing to the error stream and leaves every file as it was. *)
Theorem driver_succeeds_without_records L B C w :
  (convert_pokercraft_to_bink L (cfg_html_file C) (cfg_output_csv C) (cfg_year C)
     (cfg_default_buy_in C) (cfg_location C) (cfg_bankroll C) w).2 = Ok [] ->
  let x := main L B C w in
  status x = 0 ∧ tracebacks x = [] ∧ files (final x) = files w ∧
  final x
  = (convert_pokercraft_to_bink L (cfg_html_file C) (cfg_output_csv C) (cfg_year C)
       (cfg_default_buy_in C) (cfg_location C) (cfg_bankroll C)
       (World (files w) (stdout w ++ banner C)%list)).1.
Proof.
  intros He x. subst x. unfold main. rewrite print_all_run by reflexivity. simpl.
  set (w0 := World (files w) (stdout w ++ banner C)%list).
  rewrite <- (convert_result_files L _ _ _ _ _ _ w w0 eq_refl) in He.
  destruct (convert_pokercraft_to_bink L (cfg_html_file C) (cfg_output_csv C) (cfg_year C)
              (cfg_default_buy_in C) (cfg_location C) (cfg_bankroll C) w0)
    as [w1 r] eqn:Hc.
  simpl in He. subst r.
  pose proof (convert_outcome _ _ _ _ _ _ _ _ _ _ Hc) as [(e' & [=] & _)|[(_ & Hk)|(? & ? & [=] & _)]].
  unfold main_body. rewrite (bind_step _ _ _ _ _ Hc). simpl.
  by rewrite Hk.
Qed.

Lemma driver_succeeds_without_records_witness :
  status (main (Sample.lib []) SampleRun.builtins CONFIG Sample.disk) = 0
  ∧ tracebacks (main (Sample.lib []) SampleRun.builtins CONFIG Sample.disk) = []
  ∧ files (final (main (Sample.lib []) SampleRun.builtins CONFIG Sample.disk))
    = files Sample.disk
  ∧ final (main (Sample.lib []) SampleRun.builtins CONFIG Sample.disk)
    = (convert_pokercraft_to_bink (Sample.lib []) "pokercraft_sessions.html"
         "bink_import.csv" (Some 2024) None "Natural8" "Natural8"
         (World (files Sample.disk) (stdout Sample.disk ++ banner CONFIG)%list)).1.
Proof.
  exact (driver_succeeds_without_records (Sample.lib []) SampleRun.builtins CONFIG
           Sample.disk eq_refl).
Defined.

(** ** The helpers on text *)

Lemma remove_app c a b : remove c (a +:+ b) = remove c a +:+ remove c b.
Proof.
  induction a as [|x a IH]; [done|].
  change (String x a +:+ b) with (String x (a +:+ b)). cbn [remove].
  rewrite IH. by destruct (Ascii.eqb x c).
Qed.

Lemma contains_remove c s : contains (String c "") (remove c s) = false.
Proof.
  induction s as [|x s IH]; [done|]. cbn [remove].
  destruct (Ascii.eqb x c) eqn:E; [done|].
  cbn [contains starts_with]. by rewrite Ascii.eqb_sym, E, IH.
Qed.

Lemma split_not_nil sep s : split sep s ≠ [].
Proof.
  destruct s as [|c s]; [done|]. cbn [split].
  destruct (Ascii.eqb c sep); [done|]. by destruct (split sep s).
Qed.

Lemma split_app sep a b :
  contains (String sep "") a = false ->
  split sep (a +:+ String sep b) = a :: split sep b.
Proof.
  induction a as [|x a IH]; intros H.
  - change ("" +:+ String sep b) with (String sep b). cbn [split].
    by rewrite Ascii.eqb_refl.
  - change (String x a +:+ String sep b) with (String x (a +:+ String sep b)).
    cbn [contains starts_with] in H. rewrite orb_false_iff, andb_true_r in H.
    destruct H as [Hx Ha]. cbn [split]. rewrite Ascii.eqb_sym, Hx. by rewrite (IH Ha).
Qed.

(** X10.  [parse_winloss] ignores dollar signs and commas wherever they
    stand: the amount read, or the exception raised, is the same with one
    of them added anywhere in the text. *)
Theorem parse_winloss_ignores_dollars_and_commas a b :
  parse_winloss (a +:+ "$" +:+ b) = parse_winloss (a +:+ b) ∧
  parse_winloss (a +:+ "," +:+ b) = parse_winloss (a +:+ b).
Proof.
  unfold parse_winloss. expose_separators.
  rewrite !remove_app. cbn [remove]. by rewrite !Ascii.eqb_refl.
Qed.

Lemma remove_cons_other c x s :
  Ascii.eqb x c = false -> remove c (String x s) = String x (remove c s).
Proof. intros H. cbn [remove]. by rewrite H. Qed.

Lemma split_cons_sep sep s : split sep (String sep s) = "" :: split sep s.
Proof. cbn [split]. by rewrite Ascii.eqb_refl. Qed.

(** X11.  [estimate_buyin_from_stakes] reads the second part only: the text
    before the first ["/"] (the small blind) and what follows a second
    ["/"] change neither the estimate nor the exception. *)
Theorem estimate_reads_second_part_only a b c :
  contains "/" a = false ->
  estimate_buyin_from_stakes (a +:+ "/" +:+ b) = estimate_buyin_from_stakes ("/" +:+ b)
  ∧ (contains "/" b = false ->
     estimate_buyin_from_stakes (a +:+ "/" +:+ b +:+ "/" +:+ c)
     = estimate_buyin_from_stakes (a +:+ "/" +:+ b)).
Proof.
  intros Ha. unfold estimate_buyin_from_stakes. expose_separators.
  rewrite !remove_app, !(remove_cons_other "$" "/") by done.
  rewrite !(split_app "/" (remove "$" a)) by by apply remove_keeps_absent.
  rewrite split_cons_sep. split; [done|]. intros Hb.
  rewrite remove_app, (remove_cons_other "$" "/") by done.
  rewrite (split_app "/" (remove "$" b)) by by apply remove_keeps_absent.
  by rewrite (split_without "/" (remove "$" b)) by by apply remove_keeps_absent.
Qed.

Lemma estimate_reads_second_part_only_witness :
  estimate_buyin_from_stakes ("one" +:+ "/" +:+ "2")
  = estimate_buyin_from_stakes ("/" +:+ "2")
  ∧ estimate_buyin_from_stakes ("1" +:+ "/" +:+ "2" +:+ "/" +:+ "ante 3")
    = estimate_buyin_from_stakes ("1" +:+ "/" +:+ "2").
Proof.
  split.
  - by destruct (estimate_reads_second_part_only "one" "2" "" eq_refl) as [H _].
  - destruct (estimate_reads_second_part_only "1" "2" "ante 3" eq_refl) as [_ H].
    by apply H.
Defined.

(** X12.  [parse_date] reads the text before the first comma only: what
    follows the comma (the time of day) does not change the date returned. *)
Theorem parse_date_reads_before_comma L d rest year w :
  contains "," d = false ->
  (parse_date L (d +:+ "," +:+ rest) year w).2 = (parse_date L d year w).2.
Proof.
  intros Hd. rewrite !parse_date_run. unfold parse_date_body. expose_separators.
  rewrite (split_app "," d rest Hd), (split_without "," d Hd). simpl.
  by destruct (strptime_bdY L _).
Qed.

Lemma parse_date_reads_before_comma_witness :
  (parse_date (Sample.lib []) ("Nov 10" +:+ "," +:+ " 23:00") (Some 2024) Sample.disk).2
  = (parse_date (Sample.lib []) "Nov 10" (Some 2024) Sample.disk).2.
Proof.
  apply (parse_date_reads_before_comma (Sample.lib []) "Nov 10" " 23:00"). reflexivity.
Defined.

Lemma split_length_cons sep c s :
  length (split sep (String c s))
  = if Ascii.eqb c sep then S (length (split sep s)) else length (split sep s).
Proof.
  cbn [split]. destruct (Ascii.eqb c sep); [done|].
  destruct (split sep s) eqn:E; [by apply split_not_nil in E|done].
Qed.

Lemma split_length_remove sep c s :
  Ascii.eqb sep c = false ->
  length (split sep (remove c s)) = length (split sep s).
Proof.
  intros Hc. induction s as [|x s IH]; [done|].
  cbn [remove]. destruct (Ascii.eqb x c) eqn:Ex.
  - apply Ascii.eqb_eq in Ex as ->. rewrite split_length_cons, Ascii.eqb_sym, Hc. done.
  - rewrite !split_length_cons, IH. done.
Qed.

Lemma split_length_lstrip sep p s :
  p sep = false -> length (split sep (lstrip_by p s)) = length (split sep s).
Proof.
  intros Hp. induction s as [|x s IH]; [done|].
  cbn [lstrip_by]. destruct (p x) eqn:Ex; [|done].
  rewrite split_length_cons, IH.
  destruct (Ascii.eqb_spec x sep) as [->|]; [congruence|done].
Qed.

Lemma split_length_rev_app sep s : ∀ t,
  (length (split sep (String.rev_app s t)) + 1
   = length (split sep s) + length (split sep t))%nat.
Proof.
  induction s as [|x s IH]; intros t; [simpl; lia|].
  cbn [String.rev_app]. rewrite IH, !split_length_cons.
  destruct (Ascii.eqb x sep); lia.
Qed.

Lemma split_length_rev sep s :
  length (split sep (String.rev s)) = length (split sep s).
Proof.
  unfold String.rev. pose proof (split_length_rev_app sep s "") as H.
  simpl in H. lia.
Qed.

(** X13.  [parse_stakes] leaves no dollar sign and no space in the text and
    keeps its [small/big] structure: the result has as many ["/"]-separated
    parts as the input. *)
Theorem parse_stakes_keeps_structure stakes_str :
  contains "$" (parse_stakes stakes_str) = false
  ∧ contains " " (parse_stakes stakes_str) = false
  ∧ length (split "/" (parse_stakes stakes_str)) = length (split "/" stakes_str).
Proof.
  unfold parse_stakes. split_and!.
  - apply remove_keeps_absent, contains_remove.
  - apply contains_remove.
  - rewrite !split_length_remove by done.
    unfold strip, strip_by.
    by rewrite split_length_rev, split_length_lstrip, split_length_rev, split_length_lstrip.
Qed.

(** ** Durations and buy-ins by enumeration *)

Lemma cents_shift_spec m k :
  cents_shift m k = round_half_even (Zpos m * 100) (Zpos (2 ^ k)%positive).
Proof.
  unfold cents_shift, round_half_even.
  rewrite Z.shiftr_div_pow2, Z.land_ones, Z.shiftl_1_l, Pos2Z.inj_pow by lia.
  reflexivity.
Qed.

Lemma near_hours_spec T y :
  near_hours T y = true ->
  ∃ k, fround2 y = hundredths k ∧ Z.abs (T - 36 * k) <= 18.
Proof.
  destruct y as [[]|[]| |[] m [|k|k]]; simpl; try done.
  - intros HT. apply Z.eqb_eq in HT as ->. exists 0. split; [done|simpl; lia].
  - rewrite cents_shift_spec, andb_true_iff, Z.leb_le, Z.leb_le. intros [Hc HT].
    exists (round_half_even (Zpos m * 100) (Zpos (2 ^ k)%positive)). split; [|done].
    destruct (round_half_even _ _); [done|done|lia].
Qed.

Lemma in_range n z : 0 <= z < Z.of_nat n -> In z (range n).
Proof.
  intros Hz. unfold range. apply in_map_iff. exists (Z.to_nat z).
  split; [lia|]. apply in_seq. lia.
Qed.

Lemma duration_table_spec H h m s :
  duration_table H = true ->
  0 <= h < Z.of_nat H -> 0 <= m < 60 -> 0 <= s < 60 ->
  ∃ k, decimal_hours h m s = Ok (VFloat (hundredths k))
       ∧ Z.abs (3600 * h + 60 * m + s - 36 * k) <= 18.
Proof.
  unfold duration_table. intros Ht Hh Hm Hs.
  rewrite forallb_forall in Ht. specialize (Ht m (in_range 60 m Hm)).
  unfold decimal_hours, py_div, py_add.
  destruct (int_truediv m 60) as [a|]; [|done].
  rewrite forallb_forall in Ht. specialize (Ht h (in_range H h Hh)).
  cbn [mbind result_bind].
  destruct (of_int h) as [x|]; [|done]. cbv zeta in Ht.
  rewrite forallb_forall in Ht. specialize (Ht (s, int_truediv s 3600)).
  cbn [fst snd mbind result_bind] in *.
  assert (In (s, int_truediv s 3600) seconds_table) as Hin.
  { unfold seconds_table. apply in_map_iff. exists s. split; [done|]. by apply in_range. }
  specialize (Ht Hin).
  destruct (int_truediv s 3600) as [b|]; [|done].
  cbn [mbind result_bind py_round2]. apply near_hours_spec in Ht as (k & Hk & HT).
  exists k. by rewrite Hk.
Qed.

Lemma duration_table_24 : duration_table 24 = true.
Proof. vm_cast_no_check (eq_refl true). Qed.

(** X14.  For every duration below 24 hours written as hours, minutes and
    seconds (or hours and minutes), [parse_duration] returns a whole number
    of hundredths of an hour, and that number is within half a hundredth of
    the exact duration: with [T] the duration in seconds, the result is the
    float nearest to [k/100] for a [k] with [|T - 36 k| <= 18]. *)
Theorem parse_duration_nearest_hundredth d hs ms rest h m s :
  split ":" (strip d) = hs :: ms :: rest ->
  py_int hs = Ok h -> py_int ms = Ok m ->
  match rest with [] => s = 0 | ss :: _ => py_int ss = Ok s end ->
  0 <= h < 24 -> 0 <= m < 60 -> 0 <= s < 60 ->
  ∃ k, parse_duration d = Ok (VFloat (hundredths k))
       ∧ Z.abs (3600 * h + 60 * m + s - 36 * k) <= 18.
Proof.
  intros Hparts Hh Hm Hs Hh24 Hm60 Hs60.
  assert (parse_duration d = decimal_hours h m s) as ->.
  { unfold parse_duration, decimal_hours. rewrite Hparts.
    cbn [index lookup list_lookup mbind result_bind]. rewrite Hh, Hm.
    cbn [mbind result_bind]. destruct rest as [|ss more].
    - by subst s.
    - cbn [length Nat.ltb Nat.leb index lookup list_lookup mbind result_bind].
      by rewrite Hs. }
  by apply (duration_table_spec 24 h m s duration_table_24).
Qed.

Lemma parse_duration_nearest_hundredth_witness :
  (∃ k, parse_duration "07:41:13" = Ok (VFloat (hundredths k))
        ∧ Z.abs (3600 * 7 + 60 * 41 + 13 - 36 * k) <= 18)
  ∧ (∃ k, parse_duration "23:59" = Ok (VFloat (hundredths k))
          ∧ Z.abs (3600 * 23 + 60 * 59 + 0 - 36 * k) <= 18).
Proof.
  split.
  - apply (parse_duration_nearest_hundredth "07:41:13" "07" "41" ["13"]);
      (reflexivity || lia).
  - apply (parse_duration_nearest_hundredth "23:59" "23" "59" []);
      (reflexivity || lia).
Defined.

Lemma buyin_table_spec n c :
  buyin_table n = true -> 1 <= c <= n ->
  fround2 (fmul (hundredths c) (dyadic 100 0)) = dyadic c 0.
Proof.
  unfold buyin_table. intros Ht Hc. rewrite forallb_forall in Ht.
  assert (whole_buyin c = true) as Hw.
  { apply Ht. apply in_map_iff. exists (Z.to_nat c). split; [lia|]. apply in_seq. lia. }
  unfold whole_buyin in Hw.
  destruct (fmul (hundredths c) (dyadic 100 0)) as [| | |[] m [|k|k]]; try done.
  apply andb_true_iff in Hw as [Hk Hd].
  apply Z.eqb_eq in Hk. apply bool_decide_eq_true in Hd.
  cbn [fround2]. rewrite <- cents_shift_spec, Hk, <- Hd.
  destruct c; [lia|done|lia].
Qed.

Lemma buyin_table_10000 : buyin_table 10000 = true.
Proof. vm_cast_no_check (eq_refl true). Qed.

(** X15.  For every big blind from 0.01 to 100.00 that is a whole number
    of hundredths, the estimated buy-in is exactly one hundred big blinds:
    if the second part of the stakes reads as [c/100], the estimate is the
    whole number [c]. *)
Theorem estimate_is_exact_on_hundredths stakes small big rest c :
  split "/" (remove "$" stakes) = small :: big :: rest ->
  py_float big = Ok (hundredths c) ->
  1 <= c <= 10000 ->
  estimate_buyin_from_stakes stakes = Ok (VFloat (dyadic c 0)).
Proof.
  intros Hparts Hbig Hc. unfold estimate_buyin_from_stakes. rewrite Hparts.
  cbn [index lookup list_lookup mbind result_bind]. rewrite Hbig.
  cbn [mbind result_bind py_mul].
  change (of_int 100) with (Ok (dyadic 100 0)).
  cbn [mbind result_bind py_round2].
  by rewrite (buyin_table_spec 10000 c buyin_table_10000).
Qed.

Lemma estimate_is_exact_on_hundredths_witness :
  estimate_buyin_from_stakes "$0.25/$0.50" = Ok (VFloat (dyadic 50 0))
  ∧ estimate_buyin_from_stakes "5/10" = Ok (VFloat (dyadic 1000 0)).
Proof.
  split.
  - apply (estimate_is_exact_on_hundredths "$0.25/$0.50" "0.25" "0.50" [] 50);
      [reflexivity|reflexivity|lia].
  - apply (estimate_is_exact_on_hundredths "5/10" "5" "10" [] 1000);
      [reflexivity|by_vm|lia].
Defined.

(** ** Running the converter again *)

(** X16.  Running the converter a second time, on the files the first run
    left, returns the same result and leaves the same files, when the
    output path is not the input path: the output is written anew, not
    added to. *)
Theorem convert_again_is_the_same
    L html_file output_csv year d location bankroll w w1 r :
  html_file ≠ output_csv ->
  convert_pokercraft_to_bink L html_file output_csv year d location bankroll w = (w1, r) ->
  ∃ w2,
    convert_pokercraft_to_bink L html_file output_csv year d location bankroll w1 = (w2, r)
    ∧ files w2 = files w1.
Proof.
  intros Hpaths H1.
  destruct (convert_pokercraft_to_bink L html_file output_csv year d location bankroll w1)
    as [w2 r2] eqn:H2.
  assert (files w1 !! html_file = files w !! html_file) as Hin.
  { by apply (convert_touches_only_output_helper L html_file output_csv year d
                location bankroll w w1 r H1). }
  assert (r2 = r) as ->.
  { pose proof (convert_result L html_file output_csv year d location bankroll w) as Hr.
    pose proof (convert_result L html_file output_csv year d location bankroll w1) as Hr1.
    rewrite H1 in Hr. rewrite H2, Hin in Hr1. simpl in *. rewrite Hr, Hr1.
    destruct (files w !! html_file) as [html|]; [|done].
    rewrite (scan_rows_result L year d _ O O [] w1 w).
    by destruct (scan_rows L year d O (find_rows L html) [] w).2. }
  exists w2. split; [done|].
  apply convert_outcome in H1 as [(e & -> & Hk1)|[(-> & Hk1)|(s & l & -> & Hk1)]];
  apply convert_outcome in H2 as [(e2 & [=] & Hk2)|[([=] & Hk2)|(s2 & l2 & [=] & Hk2)]];
    subst; try done.
  by rewrite Hk2, Hk1, insert_insert_eq.
Qed.

Lemma convert_again_is_the_same_witness :
  ∃ w2,
    convert_pokercraft_to_bink (Sample.lib [Sample.full_row]) "pokercraft_sessions.html"
      "bink_import.csv" (Some 2024) None "Natural8" "Natural8"
      (Sample.run [Sample.full_row] (Some 2024) None).1
    = (w2, Ok [Sample.full_session])
    ∧ files w2 = files (Sample.run [Sample.full_row] (Some 2024) None).1.
Proof.
  apply (convert_again_is_the_same (Sample.lib [Sample.full_row]) "pokercraft_sessions.html"
           "bink_import.csv" (Some 2024) None "Natural8" "Natural8" Sample.disk).
  - discriminate.
  - by_vm.
Defined.

(** ** A minus sign in front of an amount *)

Lemma append_cons c x y : String c x +:+ y = String c (x +:+ y).
Proof. reflexivity. Qed.

Lemma rev_app_append s : ∀ t, String.rev_app s t = String.rev_app s "" +:+ t.
Proof.
  induction s as [|c s IH]; intros t; [done|].
  cbn [String.rev_app]. rewrite (IH (String c t)), (IH (String c "")), append_assoc. done.
Qed.

Lemma rev_app_snoc s a : String.rev_app (s +:+ String a "") "" = String a (String.rev_app s "").
Proof.
  assert (∀ t, String.rev_app (s +:+ String a "") t = String a "" +:+ String.rev_app s t) as H.
  { induction s as [|c s IH]; intros t; [done|].
    rewrite append_cons. cbn [String.rev_app]. apply IH. }
  apply H.
Qed.

Lemma lstrip_by_snoc p s a t :
  p a = false -> lstrip_by p (s +:+ String a t) = lstrip_by p s +:+ String a t.
Proof.
  intros Ha. induction s as [|c s IH].
  - change ("" +:+ String a t) with (String a t). cbn [lstrip_by]. by rewrite Ha.
  - rewrite append_cons. cbn [lstrip_by]. destruct (p c); [apply IH|done].
Qed.

Lemma strip_by_cons p a s :
  p a = false ->
  strip_by p (String a s) = String a (String.rev (lstrip_by p (String.rev s))).
Proof.
  intros Ha. unfold strip_by, String.rev. cbn [lstrip_by String.rev_app]. rewrite Ha.
  cbn [String.rev_app].
  rewrite (rev_app_append s (String a "")), lstrip_by_snoc, rev_app_snoc by done. done.
Qed.

Lemma strip_by_cons_cons p a c s :
  p a = false -> p c = false ->
  strip_by p (String a (String c s)) = String a (strip_by p (String c s)).
Proof.
  intros Ha Hc. rewrite (strip_by_cons p a) by done.
  f_equal. unfold strip_by. cbn [lstrip_by]. by rewrite Hc.
Qed.

Lemma binary_round_aux_opp mx ex lx :
  binary_round_aux prec emax true mx ex lx = SFopp (binary_round_aux prec emax false mx ex lx).
Proof.
  unfold binary_round_aux.
  destruct (shr_fexp prec emax mx ex lx) as [m1 e1].
  destruct (shr_fexp prec emax _ e1 loc_Exact) as [m2 e2].
  destruct (shr_m m2); [done| |done]. by destruct (e2 <=? emax - prec).
Qed.

Lemma ratio_opp n d : ratio true n d = SFopp (ratio false n d).
Proof.
  unfold ratio, SFdiv.
  destruct (SFdiv_core_binary prec emax (Z.pos n) 0 (Z.pos d) 0) as [[mz ez] lz].
  apply binary_round_aux_opp.
Qed.

Lemma dyadic_opp z : 0 < z -> dyadic (- z) 0 = SFopp (dyadic z 0).
Proof.
  destruct z as [|m|m]; [lia| |lia]. intros _.
  change (- Z.pos m) with (Z.neg m).
  unfold dyadic, binary_normalize, binary_round.
  destruct (shl_align m 0 _) as [mz ez]. apply binary_round_aux_opp.
Qed.

Lemma of_decimal_opp D e10 : of_decimal true D e10 = SFopp (of_decimal false D e10).
Proof.
  unfold of_decimal. destruct D as [|n|n]; [done| |done].
  destruct e10 as [|k|k]; [| |apply ratio_opp];
    apply dyadic_opp; (apply Z.mul_pos_pos; [lia|apply Z.pow_pos_nonneg; lia]).
Qed.

Lemma decimal_opp s : decimal true s = SFopp <$> decimal false s.
Proof.
  unfold decimal. destruct (take_digits 0 s) as [[i ni] r1].
  destruct (match r1 with String "." r => take_digits i r | _ => (i, O, r1) end)
    as [[m nf] r2].
  destruct (ni + nf)%nat; [done|].
  destruct r2 as [|c r3]; [simpl; by rewrite of_decimal_opp|].
  destruct (Ascii.eqb c "e" || Ascii.eqb c "E"); [|done].
  destruct (sign_of r3) as [eneg r4].
  destruct (take_digits 0 r4) as [[ev [|ne]] [|]]; try done.
  simpl. by rewrite of_decimal_opp.
Qed.

Lemma special_opp s : special true s = SFopp <$> special false s.
Proof.
  unfold special. destruct (_ || _); [done|]. by destruct (String.eqb _ _).
Qed.

Lemma unsigned_start c :
  is_Some (digit c) ∨ c = "."%char ->
  is_space c = false ∧ is_cspace c = false ∧ Ascii.eqb c "_" = false
  ∧ ∀ s, sign_of (String c s) = (false, String c s).
Proof.
  intros H.
  assert (bool_decide (is_Some (digit c)) || Ascii.eqb c "." = true) as Hb.
  { destruct H as [H| ->]; [|by rewrite orb_true_r]. by rewrite bool_decide_eq_true_2. }
  clear H. destruct c as [[] [] [] [] [] [] [] []]; try discriminate Hb; done.
Qed.

(** X17.  A minus sign in front of an unsigned amount negates the value:
    when the text, without its dollar signs and commas, begins with a digit
    or a decimal point and [parse_winloss] reads it as [x], the text with
    ["-"] in front is read as [-x]. *)
Theorem parse_winloss_minus_negates t c r x :
  remove "," (remove "$" t) = String c r ->
  is_Some (digit c) ∨ c = "."%char ->
  parse_winloss t = Ok (VFloat x) ->
  parse_winloss ("-" +:+ t) = Ok (VFloat (SFopp x)).
Proof.
  intros Hu Hc. apply unsigned_start in Hc as (Hs & Hcs & Hund & Hsign).
  unfold parse_winloss.
  change ("-" +:+ t) with (String "-" t). cbn [remove Ascii.eqb Bool.eqb].
  rewrite Hu. unfold strip. rewrite (strip_by_cons_cons is_space "-" c r) by done.
  rewrite (strip_by_cons is_space c r Hs).
  set (v := String.rev (lstrip_by is_space (String.rev r))).
  unfold py_float.
  rewrite (strip_by_cons_cons is_cspace "-" c v) by done.
  rewrite (strip_by_cons is_cspace c v Hcs).
  set (w := String.rev (lstrip_by is_cspace (String.rev v))).
  cbn [drop_underscores Ascii.eqb Bool.eqb]. rewrite Hund.
  destruct (drop_underscores _ w) as [t'|]; [|done].
  cbn [fmap option_fmap option_map]. rewrite Hsign.
  cbn [sign_of]. rewrite special_opp, decimal_opp.
  destruct (special false _) as [y|]; [by intros [= <-]|].
  destruct (decimal false _) as [y|]; [by intros [= <-]|done].
Qed.

Lemma parse_winloss_minus_negates_witness :
  parse_winloss "-$1,250.50" = Ok (VFloat (SFopp (dyadic 2501 (-1)))).
Proof.
  apply (parse_winloss_minus_negates "$1,250.50" "1" "250.50").
  - reflexivity.
  - left. by eexists.
  - by_vm.
Defined.

(** ** Texts without their separator *)

(** X18.  A duration without a colon is never accepted: [parse_duration]
    raises [ValueError] when the text is not a whole number and
    [IndexError] when it is. *)
Theorem parse_duration_needs_a_colon d :
  contains ":" d = false ->
  ∃ e, parse_duration d = Raise e
       ∧ exn_cls e = (if raised (py_int (strip d)) then ValueError else IndexError).
Proof.
  intros Hd.
  assert (split ":" (strip d) = [strip d]) as Hparts.
  { pose proof (split_without ":" d Hd) as H1.
    assert (length (split ":" (strip d)) = 1%nat) as Hlen.
    { unfold strip, strip_by.
      rewrite split_length_rev, split_length_lstrip, split_length_rev,
        split_length_lstrip, H1 by done. done. }
    apply split_without.
    destruct (contains ":" (strip d)) eqn:E; [|done].
    exfalso. revert Hlen E. generalize (strip d). clear.
    induction s as [|c s IH]; [done|].
    rewrite split_length_cons. cbn [contains starts_with]. rewrite andb_true_r.
    destruct (Ascii.eqb_spec c ":") as [->|Hc].
    - pose proof (split_not_nil ":" s). destruct (split ":" s); [done|simpl; lia].
    - rewrite Ascii.eqb_sym. destruct (Ascii.eqb_spec c ":"); [done|]. simpl. auto. }
  unfold parse_duration. rewrite Hparts. cbn [index lookup list_lookup mbind result_bind].
  destruct (py_int (strip d)) as [h|e] eqn:Hh.
  - eexists. split; [reflexivity|done].
  - exists e. split; [done|]. simpl. by apply py_int_raises_ValueError in Hh.
Qed.

Lemma parse_duration_needs_a_colon_witness :
  ∃ e, parse_duration "90" = Raise e ∧ exn_cls e = IndexError.
Proof. exact (parse_duration_needs_a_colon "90" eq_refl). Defined.

(** X19.  Stakes without a slash have no big blind: whatever else they
    hold, [estimate_buyin_from_stakes] raises [IndexError]. *)
Theorem estimate_needs_a_slash stakes :
  contains "/" stakes = false ->
  estimate_buyin_from_stakes stakes = Raise (Exn IndexError "list index out of range").
Proof.
  intros H. unfold estimate_buyin_from_stakes.
  by rewrite (split_without "/" _ (remove_keeps_absent "/" "$" _ H)).
Qed.

Lemma estimate_needs_a_slash_witness :
  estimate_buyin_from_stakes "$0.10" = Raise (Exn IndexError "list index out of range").
Proof. exact (estimate_needs_a_slash "$0.10" eq_refl). Defined.
